(** * The OpenAPI response monitor of AnoMod, embedded and verified

    Source: SN_collection-scripts/Dataset/api_responses/enhanced_openapi_monitor.py
    (class [EnhancedOpenAPIMonitor]).

    The monitor is a Python object mutated by coroutines.  It is embedded as
    a state-and-exception monad over a [World]: the object ([self]), the output
    files, a wall clock and an observation trace.  What the network and the
    operating system decide (which endpoints answer, with what, after how
    long, and when a signal arrives) is an explicit environment [Env].

    Numbers: Python ints are [Z] or [nat] (counters that only grow); Python
    floats (times, latencies, percentages) are exact rationals [Q].  The
    two float constants [0.95] and [0.99] of the percentile indices are the
    rationals 95/100 and 99/100; [float_index_agrees_upto_4096] checks this
    reading against binary64 arithmetic.  Sums, products and quotients of
    floats are the exact ones, where Python rounds each to binary64: the
    statements below say which operation yields a value, or compare values
    that the code only selects from its input; none of them is an identity
    that rounding would break. *)

From Stdlib Require Import QArith Qround Qminmax Lqa ZArith Lia Ascii String.
From Stdlib Require Import Floats Uint63.
From stdpp Require Import base list gmap strings sorting.

Local Open Scope string_scope.
Local Open Scope list_scope.

(** ** Python exceptions and results *)

Module Py.

(** The exception classes that occur in the monitor.  All of them are
    subclasses of [Exception]; [TimeoutError] is [asyncio.TimeoutError]. *)
Inductive exn : Type :=
| TimeoutError
| ClientError (msg : string)   (* any aiohttp / OS failure of a request *)
| ZeroDivisionError
| IndexError
| ValueError
| TypeError.

(** [str(e)] *)
Definition str (e : exn) : string :=
  match e with
  | TimeoutError => ""
  | ClientError msg => msg
  | ZeroDivisionError => "division by zero"
  | IndexError => "list index out of range"
  | ValueError => "min() arg is an empty sequence"
  | TypeError => "an integer is required"
  end.

(** What running a piece of code yields: a value, a raised exception, or
    (for the fuelled main loop only) not finished yet. *)
Inductive result (A : Type) : Type :=
| Ok (a : A)
| Raise (e : exn)
| OutOfFuel.
Arguments Ok {A} a.
Arguments Raise {A} e.
Arguments OutOfFuel {A}.

(** Sequencing of code that only computes. *)
Definition rbind {A B} (r : result A) (k : A -> result B) : result B :=
  match r with
  | Ok a => k a
  | Raise e => Raise e
  | OutOfFuel => OutOfFuel
  end.

Fixpoint mapM {A B} (f : A -> result B) (l : list A) : result (list B) :=
  match l with
  | [] => Ok []
  | x :: rest =>
      rbind (f x) (fun y => rbind (mapM f rest) (fun ys => Ok (y :: ys)))
  end.

(** [a / b] on numbers *)
Definition truediv (a b : Q) : result Q :=
  if Qeq_bool b 0 then Raise ZeroDivisionError else Ok (a / b)%Q.

(** [l[i]] for an index [i >= 0] *)
Definition getitem {A} (l : list A) (i : nat) : result A :=
  match l !! i with
  | Some x => Ok x
  | None => Raise IndexError
  end.

(** [min(l)]: the first smallest element *)
Definition min (l : list Q) : result Q :=
  match l with
  | [] => Raise ValueError
  | x :: rest =>
      Ok (foldl (fun best item => if Qlt_le_dec item best then item else best) x rest)
  end.

(** [max(l)]: the first largest element *)
Definition max (l : list Q) : result Q :=
  match l with
  | [] => Raise ValueError
  | x :: rest =>
      Ok (foldl (fun best item => if Qlt_le_dec best item then item else best) x rest)
  end.

(** [sum(l)] *)
Definition sum (l : list Q) : Q := foldl Qplus 0%Q l.

(** [int(x)] for a float [x]: truncation towards zero *)
Definition int (x : Q) : Z :=
  if Qlt_le_dec x 0 then Qceiling x else Qfloor x.

(** [round(x, 2)]: to the nearest hundredth, ties to even.  This rounds the
    exact value; Python rounds the binary64 value, which can differ from it
    in the last digit kept.  No property below depends on the digits of a
    rounded value. *)
Definition round2 (x : Q) : Q :=
  let y := (x * 100)%Q in
  let f := Qfloor y in
  let r := (y - inject_Z f)%Q in
  let n := if Qlt_le_dec r (1 # 2) then f
           else if Qlt_le_dec (1 # 2) r then (f + 1)%Z
           else if Z.even f then f else (f + 1)%Z in
  (inject_Z n / 100)%Q.

(** [needle in hay] on strings *)
Fixpoint contains (needle hay : string) : bool :=
  if String.prefix needle hay then true
  else match hay with
       | EmptyString => false
       | String _ rest => contains needle rest
       end.

(** An insertion-ordered [dict] with string keys. *)
Definition dict (V : Type) : Type := list (string * V).

Fixpoint dict_get {V} (d : dict V) (k : string) : option V :=
  match d with
  | [] => None
  | (k', v) :: rest => if String.eqb k k' then Some v else dict_get rest k
  end.

(** [d[k] = f(d.get(k))]: an existing key keeps its place, a new one goes
    last. *)
Fixpoint dict_upd {V} (k : string) (f : option V -> V) (d : dict V) : dict V :=
  match d with
  | [] => [(k, f None)]
  | (k', v) :: rest =>
      if String.eqb k k' then (k', f (Some v)) :: rest
      else (k', v) :: dict_upd k f rest
  end.

(** [s.lower()] on ASCII letters *)
Definition lower_ascii (c : ascii) : ascii :=
  let n := nat_of_ascii c in
  if ((65 <=? n)%nat && (n <=? 90)%nat)%bool then ascii_of_nat (n + 32) else c.

Fixpoint lower (s : string) : string :=
  match s with
  | EmptyString => EmptyString
  | String c rest => String (lower_ascii c) (lower rest)
  end.

(** [headers.get(name)] on the headers of an aiohttp response, a mapping whose
    keys match whatever their case: the first entry of that name. *)
Fixpoint header_get (headers : dict string) (name : string) : option string :=
  match headers with
  | [] => None
  | (k, v) :: rest =>
      if String.eqb (lower name) (lower k) then Some v else header_get rest name
  end.

End Py.

Import Py.

Notation "'let?' x ':=' c 'in' k" := (rbind c (fun x => k))
  (at level 10, x name, c at level 100, k at level 200).

(** [sorted(l)] on numbers *)
#[global] Instance Qle_dec : RelDecision Qle.
Proof.
  intros x y. destruct (Qlt_le_dec y x) as [H | H].
  - right. apply Qlt_not_le. exact H.
  - left. exact H.
Defined.

#[global] Instance Qle_total : Total Qle.
Proof. intros x y. destruct (Qlt_le_dec x y) as [H | H]; [left; apply Qlt_le_weak |right]; exact H. Qed.

#[global] Instance Qle_transitive : Transitive Qle.
Proof. intros x y z. apply Qle_trans. Qed.

Definition sorted (l : list Q) : list Q := merge_sort Qle l.

(** ** Data model *)

(** [defaultdict(int)] keyed by status code *)
Abbreviation histogram := (gmap Z nat).

(** [h[k] += 1] *)
Definition hist_incr (k : Z) (h : histogram) : histogram :=
  <[k := S (default 0 (h !! k))]> h.

(** [sum(h.values())] *)
Definition hist_total (h : histogram) : nat :=
  map_fold (fun _ c acc => c + acc) 0 h.

(** [self.stats] *)
Record Stats : Type := mkStats {
  total_requests : nat;
  successful_requests : nat;
  failed_requests : nat;
  status_codes : histogram;
  response_times : list Q;
  errors : list string
}.

Definition initial_stats : Stats :=
  {| total_requests := 0; successful_requests := 0; failed_requests := 0;
     status_codes := ∅; response_times := []; errors := [] |}.

(** The value stored under ["response_body"]: a decoded JSON document or a
    plain string. *)
Inductive Body : Type :=
| JsonDoc (doc : string)
| Text (s : string).

(** One record of [self.responses] and one line of the log.  The ["error"]
    key exists in the two failure records only. *)
Record ResponseRecord : Type := mkRecord {
  timestamp : Q;
  endpoint : string;
  method : string;
  status_code : Z;
  status_text : string;
  headers : dict string;
  response_body : Body;
  body_type : string;
  latency_ms : Q;
  content_length : Z;
  content_type : string;
  request_start_time : Q;
  request_end_time : Q;
  error : option string
}.

(** The monitor object. *)
Record Monitor : Type := mkMonitor {
  duration : Z;
  sample_interval : Z;
  responses : list ResponseRecord;
  start_time : option Q;
  running : bool;
  endpoints : list string;
  stats : Stats
}.

(** [EnhancedOpenAPIMonitor.__init__] *)
Definition init (duration sample_interval : Z) : Monitor :=
  {| duration := duration;
     sample_interval := sample_interval;
     responses := [];
     start_time := None;
     running := true;
     endpoints :=
       [ "http://localhost:8080/wrk2-api/user/register";
         "http://localhost:8080/wrk2-api/user/follow";
         "http://localhost:8080/wrk2-api/user/unfollow";
         "http://localhost:8080/wrk2-api/user/login";
         "http://localhost:8080/wrk2-api/post/compose";
         "http://localhost:8080/wrk2-api/home-timeline/read";
         "http://localhost:8080/wrk2-api/user-timeline/read";
         "http://localhost:8080/wrk2-api/user/profile";
         "http://localhost:8080/wrk2-api/media/upload";
         "http://localhost:8080/wrk2-api/text/upload";
         "http://localhost:8080/wrk2-api/url/shorten";
         "http://localhost:8080/wrk2-api/user-mention/upload" ];
     stats := initial_stats |}.

(** ** Reports *)

(** ["latency_statistics"] when it is not the empty dict *)
Record LatencyStats : Type := mkLatency {
  min_ms : Q;
  max_ms : Q;
  mean_ms : Q;
  median_ms : Q;
  p95_ms : Q;
  p99_ms : Q
}.

(** [response_summary.json]; [latency_statistics = None] is the empty dict
    [{}]. *)
Record Summary : Type := mkSummary {
  (* collection_info *)
  info_start_time : Q;
  duration_seconds : Z;
  total_responses : nat;
  endpoints_monitored : list string;
  sample_interval_seconds : Z;
  (* statistics *)
  stat_total_requests : nat;
  stat_successful_requests : nat;
  stat_failed_requests : nat;
  success_rate_percent : Q;
  status_code_distribution : histogram;
  latency_statistics : option LatencyStats;
  (* error_summary *)
  total_errors : nat;
  unique_errors : nat;
  common_errors : list string
}.

(** One line of [status_code_distribution.csv] below its header. *)
Record CsvRow : Type := mkRow {
  row_status_code : Z;
  row_count : nat;
  row_percentage : Q
}.

(** One value of [endpoint_performance.json]. *)
Record EndpointStats : Type := mkEndpointStats {
  ep_count : nat;
  avg_latency : Q;
  ep_status_codes : histogram
}.

(** The files under [output_dir].  The log holds one record per line. *)
Record Files : Type := mkFiles {
  openapi_responses_jsonl : list ResponseRecord;
  response_summary_json : option Summary;
  status_code_distribution_csv : option (list CsvRow);
  endpoint_performance_json : option (dict EndpointStats)
}.

Definition no_files : Files :=
  {| openapi_responses_jsonl := []; response_summary_json := None;
     status_code_distribution_csv := None; endpoint_performance_json := None |}.

(** ** The world the coroutines run in *)

(** Observations: which awaits and calls happened, and when. *)
Inductive Event : Type :=
| EvGather (t_dispatch : Q) (dispatched : nat) (t_settled : Q)
| EvSleep (t_from t_to : Q)
| EvGenerateReports (t : Q).

Record World : Type := mkWorld {
  self : Monitor;
  files : Files;
  clock : Q;             (* what time.time() returns now *)
  trace : list Event     (* oldest first *)
}.

(** [EnhancedOpenAPIMonitor(output_dir, duration, sample_interval)] in an
    empty output directory at time [t0]. *)
Definition new_world (duration sample_interval : Z) (t0 : Q) : World :=
  {| self := init duration sample_interval; files := no_files; clock := t0; trace := [] |}.

Definition with_self (f : Monitor -> Monitor) (w : World) : World :=
  {| self := f (self w); files := files w; clock := clock w; trace := trace w |}.

Definition with_files (f : Files -> Files) (w : World) : World :=
  {| self := self w; files := f (files w); clock := clock w; trace := trace w |}.

Definition with_stats (f : Stats -> Stats) (m : Monitor) : Monitor :=
  {| duration := duration m; sample_interval := sample_interval m;
     responses := responses m; start_time := start_time m; running := running m;
     endpoints := endpoints m; stats := f (stats m) |}.

Definition set_running (b : bool) (m : Monitor) : Monitor :=
  {| duration := duration m; sample_interval := sample_interval m;
     responses := responses m; start_time := start_time m; running := b;
     endpoints := endpoints m; stats := stats m |}.

Definition set_start_time (t : Q) (m : Monitor) : Monitor :=
  {| duration := duration m; sample_interval := sample_interval m;
     responses := responses m; start_time := Some t; running := running m;
     endpoints := endpoints m; stats := stats m |}.

Definition append_response (r : ResponseRecord) (m : Monitor) : Monitor :=
  {| duration := duration m; sample_interval := sample_interval m;
     responses := responses m ++ [r]; start_time := start_time m; running := running m;
     endpoints := endpoints m; stats := stats m |}.

Definition emit (e : Event) (w : World) : World :=
  {| self := self w; files := files w; clock := clock w; trace := trace w ++ [e] |}.

(** ** The monad: state plus exceptions *)

Definition M (A : Type) : Type := World -> result A * World.

Definition ret {A} (a : A) : M A := fun w => (Ok a, w).

Definition bind {A B} (c : M A) (k : A -> M B) : M B :=
  fun w =>
    match c w with
    | (Ok a, w') => k a w'
    | (Raise e, w') => (Raise e, w')
    | (OutOfFuel, w') => (OutOfFuel, w')
    end.

Definition raise {A} (e : exn) : M A := fun w => (Raise e, w).

(** [try: body  except <any Exception> as e: handler e] *)
Definition try_except {A} (body : M A) (handler : exn -> M A) : M A :=
  fun w =>
    match body w with
    | (Raise e, w') => handler e w'
    | other => other
    end.

Definition get : M World := fun w => (Ok w, w).
Definition modify (f : World -> World) : M unit := fun w => (Ok tt, f w).
Definition lift {A} (r : result A) : M A := fun w => (r, w).

Notation "'let*' x ':=' c 'in' k" := (bind c (fun x => k))
  (at level 10, x name, c at level 100, k at level 200).
Notation "'run' c 'in' k" := (bind c (fun _ => k))
  (at level 10, c at level 100, k at level 200).

(** [time.time()] *)
Definition time_time : M Q := fun w => (Ok (clock w), w).

(** ** The environment *)

(** How reading the body of a received response goes: [response.text()]
    raises, or gives a text that [json.loads] decodes or rejects. *)
Inductive BodyRead : Type :=
| ReadRaises (msg : string)
| ReadGives (text : string) (decoded : option string).

(** A response as aiohttp hands it over.  [resp_content_length] is the
    Content-Length header as a number; aiohttp parses that header itself and
    fails the request when it is not one, so [int(...)] of it cannot fail on
    a response that exists. *)
Record HttpResponse : Type := mkResponse {
  resp_status : Z;
  resp_reason : string;
  resp_headers : dict string;
  resp_content_length : option Z;
  resp_body : BodyRead
}.

(** How one request ends: a response, [asyncio.TimeoutError], or any other
    [Exception]; each after [elapsed] seconds.  Nothing cancels a task of
    the monitor, so [CancelledError] is not among the outcomes. *)
Inductive NetOutcome : Type :=
| Responds (elapsed : Q) (r : HttpResponse)
| TimesOut (elapsed : Q)
| Fails (elapsed : Q) (msg : string).

Definition elapsed_of (o : NetOutcome) : Q :=
  match o with
  | Responds d _ => d
  | TimesOut d => d
  | Fails d _ => d
  end.

Record Env : Type := mkEnv {
  (* the GET of the connectivity probe: time taken, and whether it answered *)
  connect : string -> Q * bool;
  (* the sample request of round [k] to an endpoint *)
  probe : nat -> string -> NetOutcome;
  (* when SIGINT or SIGTERM arrives, if ever *)
  signal_at : option Q;
  (* a signal that arrives while the tasks of round [k] are being created:
     how many of them have been created by then (a number that the round
     does not reach means that no signal arrives there) *)
  dispatch_signal : nat -> option nat
}.

(** [signal_handler] *)
Definition signal_handler : World -> World := with_self (set_running false).

(** An [await] that takes [d] seconds.  The clock moves on by [d] (never
    backwards); a signal that has arrived by then has had its handler run.
    Code between two awaits takes no time on this clock; a signal that
    arrives there matters where the flag is read again before the next
    await, which is in the loop that creates the tasks of a round
    ([signal_in_dispatch] below). *)
Definition signal_due (env : Env) (t : Q) : bool :=
  match signal_at env with
  | Some s => if Qlt_le_dec t s then false else true
  | None => false
  end.

Definition pass_time (env : Env) (d : Q) (w : World) : World :=
  let t := (clock w + Qmax 0 d)%Q in
  let w' := {| self := self w; files := files w; clock := t; trace := trace w |} in
  if signal_due env t then signal_handler w' else w'.

Definition await (env : Env) (d : Q) : M unit := modify (pass_time env d).

(** Python runs a signal handler between two bytecodes.  When round [k] has
    created [created] tasks and the signal of [dispatch_signal] arrives, the
    handler runs before the flag is read for the next task. *)
Definition signal_in_dispatch (env : Env) (k created : nat) (w : World) : World :=
  match dispatch_signal env k with
  | Some j => if Nat.eqb j created then signal_handler w else w
  | None => w
  end.

(** ** [make_sample_request] *)

(** The JSON body sent with a POST. *)
Inductive Payload : Type :=
| RegisterPayload (username_suffix user_id : Z)
| LoginPayload
| ComposePayload
| EmptyPayload.

Definition http_method (endpoint : string) : string :=
  if existsb (fun x => contains x endpoint)
       ["register"; "login"; "compose"; "upload"; "follow"; "unfollow"]
  then "POST" else "GET".

Definition request_data (method endpoint : string) (now : Q) : option Payload :=
  if String.eqb method "POST" then
    if contains "register" endpoint
    then Some (RegisterPayload (int now) (int now mod 10000))
    else if contains "login" endpoint then Some LoginPayload
    else if contains "compose" endpoint then Some ComposePayload
    else Some EmptyPayload
  else None.

(** [session.request(method, endpoint, data=data, headers=headers)]: the
    environment's outcome for this request, an exception when it is one. *)
Definition session_request (o : NetOutcome) (method endpoint : string)
    (data : option Payload) : M HttpResponse :=
  match o with
  | Responds _ r => ret r
  | TimesOut _ => raise TimeoutError
  | Fails _ msg => raise (ClientError msg)
  end.

(** The inner [try] around [response.text()] and [json.loads]. *)
Definition read_body (b : BodyRead) : Body * string :=
  match b with
  | ReadGives _ (Some doc) => (JsonDoc doc, "json")
  | ReadGives text None => (Text text, "text")
  | ReadRaises msg => (Text ("Error reading response: " ++ msg)%string, "error")
  end.

(** The statistics update of the success path (lines 171-179). *)
Definition count_response (status : Z) (latency : Q) (st : Stats) : Stats :=
  let ok := ((200 <=? status)%Z && (status <? 400)%Z)%bool in
  {| total_requests := S (total_requests st);
     successful_requests :=
       if ok then S (successful_requests st) else successful_requests st;
     failed_requests :=
       if ok then failed_requests st else S (failed_requests st);
     status_codes := hist_incr status (status_codes st);
     response_times := response_times st ++ [latency];
     errors := errors st |}.

(** The statistics update of both [except] branches (lines 201-203 and
    225-227). *)
Definition count_failure (msg : string) (st : Stats) : Stats :=
  {| total_requests := S (total_requests st);
     successful_requests := successful_requests st;
     failed_requests := S (failed_requests st);
     status_codes := status_codes st;
     response_times := response_times st;
     errors := errors st ++ [msg] |}.

Definition update_stats (f : Stats -> Stats) : M unit :=
  modify (with_self (with_stats f)).

(** The coroutine.  The [session] argument is represented by what the
    network makes of this request, [o].  The coroutine starts at the current
    clock reading and settles [elapsed_of o] seconds later; the coroutines of
    one round overlap, so it does not move the shared clock itself ([gather]
    does, by the longest). *)
Definition make_sample_request (o : NetOutcome) (endpoint : string) : M ResponseRecord :=
  let* request_start := time_time in
  let settled := (request_start + elapsed_of o)%Q in
  let method := http_method endpoint in
  try_except
    (let data := request_data method endpoint request_start in
     let* response := session_request o method endpoint data in
     let request_end := settled in
     let latency := ((request_end - request_start) * 1000)%Q in
     let '(response_json, body_type) := read_body (resp_body response) in
     let response_data :=
       {| timestamp := settled;
          endpoint := endpoint;
          method := method;
          status_code := resp_status response;
          status_text := resp_reason response;
          headers := resp_headers response;
          response_body := response_json;
          body_type := body_type;
          latency_ms := round2 latency;
          content_length := default 0%Z (resp_content_length response);
          content_type := default "" (header_get (resp_headers response) "Content-Type");
          request_start_time := request_start;
          request_end_time := request_end;
          error := None |} in
     run update_stats (count_response (resp_status response) latency) in
     ret response_data)
    (fun e =>
       match e with
       | TimeoutError =>
           let error_data :=
             {| timestamp := settled;
                endpoint := endpoint;
                method := method;
                status_code := 408;
                status_text := "Request Timeout";
                headers := [];
                response_body := Text "Request timed out";
                body_type := "error";
                latency_ms := ((settled - request_start) * 1000)%Q;
                content_length := 0;
                content_type := "";
                request_start_time := request_start;
                request_end_time := settled;
                error := Some "timeout" |} in
           run update_stats (count_failure "timeout") in
           ret error_data
       | _ =>
           let error_data :=
             {| timestamp := settled;
                endpoint := endpoint;
                method := method;
                status_code := 0;
                status_text := "Connection Error";
                headers := [];
                response_body := Text ("Connection error: " ++ str e)%string;
                body_type := "error";
                latency_ms := ((settled - request_start) * 1000)%Q;
                content_length := 0;
                content_type := "";
                request_start_time := request_start;
                request_end_time := settled;
                error := Some (str e) |} in
           run update_stats (count_failure (str e)) in
           ret error_data
       end).

(** A sequence of probes, one after the other, their records discarded:
    what the statistics see of a session. *)
Fixpoint run_probes (probes : list (string * NetOutcome)) : M unit :=
  match probes with
  | [] => ret tt
  | (endpoint, o) :: rest =>
      let* _r := make_sample_request o endpoint in
      run_probes rest
  end.

(** ** The round loop of [monitor_responses] *)

(** A coroutine object [self.make_sample_request(session, endpoint)], created
    but not yet running. *)
Record Task : Type := mkTask {
  task_endpoint : string;
  task_outcome : NetOutcome
}.

Definition run_task (t : Task) : M ResponseRecord :=
  make_sample_request (task_outcome t) (task_endpoint t).

(** [return_exceptions=True]: an exception of a task becomes its result. *)
Definition settle {A} (c : M A) : M (A + exn) :=
  fun w =>
    match c w with
    | (Ok a, w') => (Ok (inl a), w')
    | (Raise e, w') => (Ok (inr e), w')
    | (OutOfFuel, w') => (OutOfFuel, w')
    end.

(** The tasks of a batch, each run until it has settled.  Their statistics
    updates are applied in dispatch order, where the event loop applies them
    in the order in which the requests settle.  Two parts of the statistics
    depend on that order: the order of [response_times], which
    [generate_reports] sorts away, and the order of [errors], of which the
    reports keep the length and the set.  The results come in the order of
    the tasks either way. *)
Fixpoint run_all (tasks : list Task) : M (list (ResponseRecord + exn)) :=
  match tasks with
  | [] => ret []
  | t :: rest =>
      let* r := settle (run_task t) in
      let* rs := run_all rest in
      ret (r :: rs)
  end.

(** The time the slowest task of a batch takes. *)
Definition longest (tasks : list Task) : Q :=
  foldr (fun t acc => Qmax (elapsed_of (task_outcome t)) acc) 0%Q tasks.

(** [await asyncio.gather] of the tasks with [return_exceptions=True]: every task runs
    until it has settled; the results come in the order of [tasks]. *)
Definition gather (env : Env) (tasks : list Task) : M (list (ResponseRecord + exn)) :=
  let* t0 := time_time in
  let* results := run_all tasks in
  run await env (longest tasks) in
  let* t1 := time_time in
  run modify (emit (EvGather t0 (length tasks) t1)) in
  ret results.

(** [await asyncio.sleep(seconds)] *)
Definition asyncio_sleep (env : Env) (seconds : Z) : M unit :=
  let* t0 := time_time in
  run await env (inject_Z seconds) in
  let* t1 := time_time in
  modify (emit (EvSleep t0 t1)).

Definition append_log (r : ResponseRecord) (f : Files) : Files :=
  {| openapi_responses_jsonl := openapi_responses_jsonl f ++ [r];
     response_summary_json := response_summary_json f;
     status_code_distribution_csv := status_code_distribution_csv f;
     endpoint_performance_json := endpoint_performance_json f |}.

(** [for response_data in responses: if isinstance(response_data, dict): ...] *)
Fixpoint record_responses (results : list (ResponseRecord + exn)) : M unit :=
  match results with
  | [] => ret tt
  | inl response_data :: rest =>
      run modify (with_self (append_response response_data)) in
      run modify (with_files (append_log response_data)) in
      record_responses rest
  | inr _ :: rest => record_responses rest
  end.

(** [for endpoint in sample_endpoints: if not self.running: break; ...] *)
Fixpoint build_tasks (env : Env) (k : nat) (sample_endpoints : list string)
    (tasks : list Task) : M (list Task) :=
  match sample_endpoints with
  | [] => ret tasks
  | endpoint :: rest =>
      run modify (signal_in_dispatch env k (length tasks)) in
      let* w := get in
      if negb (running (self w)) then ret tasks
      else build_tasks env k rest
             (tasks ++ [{| task_endpoint := endpoint; task_outcome := probe env k endpoint |}])
  end.

(** [if tasks: ...] *)
Definition settle_round (env : Env) (tasks : list Task) : M unit :=
  match tasks with
  | [] => ret tt
  | _ :: _ =>
      let* responses := gather env tasks in
      record_responses responses
  end.

(** [if self.running: await asyncio.sleep(self.sample_interval)] *)
Definition inter_round_wait (env : Env) : M unit :=
  let* w := get in
  if running (self w) then asyncio_sleep env (sample_interval (self w)) else ret tt.

(** The body of the [while] loop, round number [k]. *)
Definition sampling_round (env : Env) (k : nat) (active_endpoints : list string) : M unit :=
  let sample_endpoints := take (Nat.min 5 (length active_endpoints)) active_endpoints in
  let* tasks := build_tasks env k sample_endpoints [] in
  run settle_round env tasks in
  inter_round_wait env.

(** [while time.time() < end_time and self.running: ...] *)
Fixpoint sampling_loop (fuel : nat) (env : Env) (active_endpoints : list string)
    (end_time : Q) (k : nat) : M unit :=
  match fuel with
  | O => lift OutOfFuel
  | S fuel' =>
      let* w := get in
      if (if Qlt_le_dec (clock w) end_time then running (self w) else false)
      then run sampling_round env k active_endpoints in
           sampling_loop fuel' env active_endpoints end_time (S k)
      else ret tt
  end.

(** [test_endpoint_connectivity]: one GET after the other; an answer of any
    status marks the endpoint [True], any exception [False]. *)
Fixpoint probe_endpoints (env : Env) (eps : list string) (connectivity : dict bool)
    : M (dict bool) :=
  match eps with
  | [] => ret connectivity
  | endpoint :: rest =>
      let '(d, answered) := connect env endpoint in
      run await env d in
      probe_endpoints env rest (dict_upd endpoint (fun _ => answered) connectivity)
  end.

Definition test_endpoint_connectivity (env : Env) : M (dict bool) :=
  let* w := get in
  probe_endpoints env (endpoints (self w)) [].

(** ** [generate_reports] *)

(** [int(n * c)] for the list length [n] and a float constant [c] *)
Definition scaled_index (n : nat) (c : Q) : nat :=
  Z.to_nat (int (inject_Z (Z.of_nat n) * c)).

(** [latency_stats]: [{}] (here [None]) unless there are response times. *)
Definition compute_latency_stats (response_times : list Q) : result (option LatencyStats) :=
  match response_times with
  | [] => Ok None
  | _ :: _ =>
      let times := sorted response_times in
      let n := length times in
      let? lo := Py.min times in
      let? hi := Py.max times in
      let? mean := truediv (sum times) (inject_Z (Z.of_nat n)) in
      let? median := getitem times (n / 2) in
      let? p95 := getitem times (scaled_index n (95 # 100)) in
      let? p99 := getitem times (scaled_index n (99 # 100)) in
      Ok (Some {| min_ms := lo; max_ms := hi; mean_ms := mean;
                  median_ms := median; p95_ms := p95; p99_ms := p99 |})
  end.

Definition Q_of_nat (n : nat) : Q := inject_Z (Z.of_nat n).

(** The [summary] dict. *)
Definition build_summary (m : Monitor) (latency_stats : option LatencyStats)
    : result Summary :=
  let? started := match start_time m with
                  | Some t => Ok t
                  | None => Raise TypeError
                  end in
  let st := stats m in
  let? ratio := truediv (Q_of_nat (successful_requests st))
                        (Q_of_nat (Nat.max 1 (total_requests st))) in
  let distinct : gset string := list_to_set (errors st) in
  Ok {| info_start_time := started;
        duration_seconds := duration m;
        total_responses := length (responses m);
        endpoints_monitored := endpoints m;
        sample_interval_seconds := sample_interval m;
        stat_total_requests := total_requests st;
        stat_successful_requests := successful_requests st;
        stat_failed_requests := failed_requests st;
        success_rate_percent := (ratio * 100)%Q;
        status_code_distribution := status_codes st;
        latency_statistics := latency_stats;
        total_errors := length (errors st);
        unique_errors := size distinct;
        common_errors := elements distinct |}.

(** [sorted(h.items())]: by status code, which is unique per item. *)
Definition item_le (a b : Z * nat) : Prop := (a.1 <= b.1)%Z.

#[global] Instance item_le_dec : RelDecision item_le.
Proof. intros a b. unfold item_le. apply Z_le_dec. Defined.

Definition sorted_items (h : histogram) : list (Z * nat) :=
  merge_sort item_le (map_to_list h).

(** The lines of the CSV file below the header. *)
Definition csv_rows (h : histogram) : result (list CsvRow) :=
  let total := hist_total h in
  mapM (fun item : Z * nat =>
          let '(status_code, count) := item in
          let? percentage :=
            if (0 <? total)%nat
            then let? q := truediv (Q_of_nat count) (Q_of_nat total) in Ok (q * 100)%Q
            else Ok 0%Q in
          Ok {| row_status_code := status_code; row_count := count;
                row_percentage := percentage |})
       (sorted_items h).

(** The [defaultdict] entry a first access creates. *)
Definition fresh_endpoint_stats : EndpointStats :=
  {| ep_count := 0; avg_latency := 0; ep_status_codes := ∅ |}.

(** The body of [for response in self.responses]. *)
Definition tally_response (endpoint_stats : dict EndpointStats) (response : ResponseRecord)
    : dict EndpointStats :=
  dict_upd (endpoint response)
    (fun old =>
       let s := default fresh_endpoint_stats old in
       {| ep_count := S (ep_count s);
          avg_latency := (avg_latency s + latency_ms response)%Q;
          ep_status_codes := hist_incr (status_code response) (ep_status_codes s) |})
    endpoint_stats.

(** The body of [for endpoint, stats in endpoint_stats.items()]. *)
Definition average_endpoint (item : string * EndpointStats) : result (string * EndpointStats) :=
  let '(endpoint, s) := item in
  if (0 <? ep_count s)%nat
  then let? avg := truediv (avg_latency s) (Q_of_nat (ep_count s)) in
       Ok (endpoint, {| ep_count := ep_count s; avg_latency := avg;
                        ep_status_codes := ep_status_codes s |})
  else Ok (endpoint, s).

Definition endpoint_report (responses : list ResponseRecord) : result (dict EndpointStats) :=
  mapM average_endpoint (foldl tally_response [] responses).

Definition write_summary (s : Summary) (f : Files) : Files :=
  {| openapi_responses_jsonl := openapi_responses_jsonl f;
     response_summary_json := Some s;
     status_code_distribution_csv := status_code_distribution_csv f;
     endpoint_performance_json := endpoint_performance_json f |}.

Definition write_csv (rows : list CsvRow) (f : Files) : Files :=
  {| openapi_responses_jsonl := openapi_responses_jsonl f;
     response_summary_json := response_summary_json f;
     status_code_distribution_csv := Some rows;
     endpoint_performance_json := endpoint_performance_json f |}.

Definition write_endpoint_report (r : dict EndpointStats) (f : Files) : Files :=
  {| openapi_responses_jsonl := openapi_responses_jsonl f;
     response_summary_json := response_summary_json f;
     status_code_distribution_csv := status_code_distribution_csv f;
     endpoint_performance_json := Some r |}.

Definition generate_reports : M unit :=
  let* w := get in
  run modify (emit (EvGenerateReports (clock w))) in
  let m := self w in
  let* latency_stats := lift (compute_latency_stats (response_times (stats m))) in
  let* summary := lift (build_summary m latency_stats) in
  run modify (with_files (write_summary summary)) in
  let* rows := lift (csv_rows (status_codes (stats m))) in
  run modify (with_files (write_csv rows)) in
  let* endpoint_stats := lift (endpoint_report (responses m)) in
  modify (with_files (write_endpoint_report endpoint_stats)).

(** How often [generate_reports] has been called. *)
Definition reports_generated (w : World) : nat :=
  length (List.filter (fun e => match e with EvGenerateReports _ => true | _ => false end)
                      (trace w)).

(** ** [monitor_responses] *)

(** [[ep for ep, connected in connectivity.items() if connected]] *)
Definition active_of (connectivity : dict bool) : list string :=
  map fst (List.filter snd connectivity).

(** The main coroutine.  [start_network_capture] and the stopping of the
    capture process are left out: both are wrapped in their own [try] and
    touch neither the monitor object nor the four files above. *)
Definition monitor_responses (fuel : nat) (env : Env) : M unit :=
  let* now := time_time in
  run modify (with_self (set_start_time now)) in
  let* connectivity := test_endpoint_connectivity env in
  let active_endpoints := active_of connectivity in
  match active_endpoints with
  | [] => ret tt
  | _ :: _ =>
      let* w := get in
      let* started := lift (match start_time (self w) with
                            | Some t => Ok t
                            | None => Raise TypeError
                            end) in
      let end_time := (started + inject_Z (duration (self w)))%Q in
      run sampling_loop fuel env active_endpoints end_time 0 in
      generate_reports
  end.

(** ** Notions used in the statements *)

(** What the statistics are after a probe, by its outcome. *)
Definition probe_effect (o : NetOutcome) (t : Q) : Stats -> Stats :=
  match o with
  | Responds d r => count_response (resp_status r) ((t + d - t) * 1000)%Q
  | TimesOut _ => count_failure "timeout"
  | Fails _ msg => count_failure msg
  end.

(** The three records [make_sample_request] can build. *)
Definition record_of (o : NetOutcome) (endpoint : string) (t : Q) : ResponseRecord :=
  let settled := (t + elapsed_of o)%Q in
  match o with
  | Responds _ response =>
      {| timestamp := settled; endpoint := endpoint; method := http_method endpoint;
         status_code := resp_status response; status_text := resp_reason response;
         headers := resp_headers response;
         response_body := fst (read_body (resp_body response));
         body_type := snd (read_body (resp_body response));
         latency_ms := round2 ((settled - t) * 1000);
         content_length := default 0%Z (resp_content_length response);
         content_type := default "" (header_get (resp_headers response) "Content-Type");
         request_start_time := t; request_end_time := settled; error := None |}
  | TimesOut _ =>
      {| timestamp := settled; endpoint := endpoint; method := http_method endpoint;
         status_code := 408; status_text := "Request Timeout"; headers := [];
         response_body := Text "Request timed out"; body_type := "error";
         latency_ms := ((settled - t) * 1000)%Q; content_length := 0; content_type := "";
         request_start_time := t; request_end_time := settled; error := Some "timeout" |}
  | Fails _ msg =>
      {| timestamp := settled; endpoint := endpoint; method := http_method endpoint;
         status_code := 0; status_text := "Connection Error"; headers := [];
         response_body := Text ("Connection error: " ++ msg)%string; body_type := "error";
         latency_ms := ((settled - t) * 1000)%Q; content_length := 0; content_type := "";
         request_start_time := t; request_end_time := settled; error := Some msg |}
  end.

(** [total_requests] is the sum of the two other counters. *)
Definition counters_add_up (st : Stats) : Prop :=
  total_requests st = successful_requests st + failed_requests st.

(** The histogram and the latency list count the received responses; the
    error list counts the rest. *)
Definition responses_accounted (st : Stats) : Prop :=
  hist_total (status_codes st) = length (response_times st) /\
  hist_total (status_codes st) + length (errors st) = total_requests st.

(** Both together: what every reachable [self.stats] satisfies. *)
Definition stats_consistent (st : Stats) : Prop :=
  counters_add_up st /\ responses_accounted st.

(** The state a sequence of probes leaves. *)
Fixpoint after_probes (probes : list (string * NetOutcome)) (w : World) : World :=
  match probes with
  | [] => w
  | (_, o) :: rest => after_probes rest (with_self (with_stats (probe_effect o (clock w))) w)
  end.

(** How a record is classified, read off the record itself. *)
Definition is_success (r : ResponseRecord) : Prop := error r = None.

(** The timeout sentinel. *)
Definition is_timeout (r : ResponseRecord) : Prop :=
  status_code r = 408%Z /\ status_text r = "Request Timeout" /\ error r = Some "timeout".

(** The connection-error sentinel. *)
Definition is_connection_error (r : ResponseRecord) : Prop :=
  status_code r = 0%Z /\ status_text r = "Connection Error" /\ is_Some (error r).

(** The record a task started at [t0] settles to. *)
Definition task_record (t0 : Q) (t : Task) : ResponseRecord :=
  record_of (task_outcome t) (task_endpoint t) t0.

(** The requests of a batch, as a sequence of probes. *)
Definition task_probes (tasks : list Task) : list (string * NetOutcome) :=
  map (fun t => (task_endpoint t, task_outcome t)) tasks.

(** The world after the records [rs] have been kept and logged. *)
Definition keep (rs : list ResponseRecord) (w : World) : World :=
  {| self := {| duration := duration (self w);
                sample_interval := sample_interval (self w);
                responses := responses (self w) ++ rs;
                start_time := start_time (self w);
                running := running (self w);
                endpoints := endpoints (self w);
                stats := stats (self w) |};
     files := {| openapi_responses_jsonl := openapi_responses_jsonl (files w) ++ rs;
                 response_summary_json := response_summary_json (files w);
                 status_code_distribution_csv := status_code_distribution_csv (files w);
                 endpoint_performance_json := endpoint_performance_json (files w) |};
     clock := clock w;
     trace := trace w |}.

(** The world after a batch of tasks has been gathered. *)
Definition gathered (env : Env) (tasks : list Task) (w : World) : World :=
  let w1 := pass_time env (longest tasks) (after_probes (task_probes tasks) w) in
  emit (EvGather (clock w) (length tasks) (clock w1)) w1.

(** The world after [settle_round]. *)
Definition settled (env : Env) (tasks : list Task) (w : World) : World :=
  match tasks with
  | [] => w
  | _ :: _ => keep (map (task_record (clock w)) tasks) (gathered env tasks w)
  end.

(** The world after [inter_round_wait]. *)
Definition slept (env : Env) (w : World) : World :=
  if running (self w)
  then let w1 := pass_time env (inject_Z (sample_interval (self w))) w in
       emit (EvSleep (clock w) (clock w1)) w1
  else w.

(** How many of the [n] sampled endpoints of round [k] get a task: all of
    them, unless a signal arrives while the tasks are created. *)
Definition created (env : Env) (k n : nat) : nat :=
  match dispatch_signal env k with
  | Some j => Nat.min j n
  | None => n
  end.

(** A signal arrives before the last of the [n] tasks of round [k] is
    created. *)
Definition interrupted (env : Env) (k n : nat) : bool :=
  match dispatch_signal env k with
  | Some j => (j <? n)%nat
  | None => false
  end.

(** The task of round [k] for an endpoint. *)
Definition task_for (env : Env) (k : nat) (endpoint : string) : Task :=
  {| task_endpoint := endpoint; task_outcome := probe env k endpoint |}.

(** The tasks [build_tasks] makes at the start of round [k]. *)
Definition dispatched (env : Env) (k : nat) (active_endpoints : list string) (w : World)
    : list Task :=
  let n := Nat.min 5 (length active_endpoints) in
  if running (self w)
  then map (task_for env k) (take (created env k n) (take n active_endpoints))
  else [].

(** The world once the tasks of round [k] are made. *)
Definition started (env : Env) (k : nat) (active_endpoints : list string) (w : World)
    : World :=
  if (running (self w) && interrupted env k (Nat.min 5 (length active_endpoints)))%bool
  then signal_handler w
  else w.

(** The world after round [k]. *)
Definition after_round (env : Env) (k : nat) (active_endpoints : list string) (w : World)
    : World :=
  slept env (settled env (dispatched env k active_endpoints w)
                     (started env k active_endpoints w)).

(** What neither a probe nor a round changes: the configuration, the number
    of reports and the report files; a cleared flag stays cleared and the
    clock does not go back. *)
Definition steady (w w' : World) : Prop :=
  duration (self w') = duration (self w) /\
  sample_interval (self w') = sample_interval (self w) /\
  start_time (self w') = start_time (self w) /\
  endpoints (self w') = endpoints (self w) /\
  reports_generated w' = reports_generated w /\
  response_summary_json (files w') = response_summary_json (files w) /\
  status_code_distribution_csv (files w') = status_code_distribution_csv (files w) /\
  endpoint_performance_json (files w') = endpoint_performance_json (files w) /\
  (running (self w) = false -> running (self w') = false) /\
  (clock w <= clock w')%Q.

(** The dict [test_endpoint_connectivity] returns. *)
Definition connectivity_of (env : Env) (eps : list string) (acc : dict bool) : dict bool :=
  foldl (fun d ep => dict_upd ep (fun _ => snd (connect env ep)) d) acc eps.

(** The world after the connectivity probe: only time has passed. *)
Definition after_connectivity (env : Env) (eps : list string) (w : World) : World :=
  foldl (fun w ep => pass_time env (fst (connect env ep)) w) w eps.

(** A 200 response with a JSON body, for the examples. *)
Definition ok_response : HttpResponse :=
  {| resp_status := 200; resp_reason := "OK";
     resp_headers := [("Content-Type", "application/json"); ("Content-Length", "2")];
     resp_content_length := Some 2%Z;
     resp_body := ReadGives "{}" (Some "{}") |}.

(** No endpoint answers the connectivity probe. *)
Definition env_all_down : Env :=
  {| connect := fun _ => (1 # 10, false)%Q;
     probe := fun _ _ => Fails (1 # 10) "Cannot connect to host localhost:8080";
     signal_at := None;
     dispatch_signal := fun _ => None |}.

(** Every endpoint answers; SIGTERM arrives at 1003 s. *)
Definition env_signal_at_1003 : Env :=
  {| connect := fun _ => (1 # 10, true)%Q;
     probe := fun _ _ => Responds (1 # 2) ok_response;
     signal_at := Some 1003%Q;
     dispatch_signal := fun _ => None |}.

(** Every endpoint answers; a signal arrives while the first round creates
    its tasks, when two of them have been created. *)
Definition env_signal_in_dispatch : Env :=
  {| connect := fun _ => (1 # 10, true)%Q;
     probe := fun _ _ => Responds (1 # 2) ok_response;
     signal_at := None;
     dispatch_signal := fun k => if Nat.eqb k 0 then Some 2 else None |}.

(** A response log with one line from an earlier run. *)
Definition old_log : Files :=
  append_log (record_of (TimesOut 10) "http://localhost:8080/wrk2-api/user/login" 900)
             no_files.

(** A monitor in mid-session: five requests so far, of which two timed out,
    one was refused and two were answered. *)
Definition sampled_monitor : Monitor :=
  self (snd (run_probes
               [("http://localhost:8080/wrk2-api/user/login", TimesOut 10);
                ("http://localhost:8080/wrk2-api/user/register",
                 Fails (1 # 10) "Connection refused");
                ("http://localhost:8080/wrk2-api/user/login", Responds (1 # 2) ok_response);
                ("http://localhost:8080/wrk2-api/post/compose", TimesOut 10);
                ("http://localhost:8080/wrk2-api/user/follow",
                 Responds (1 # 4) ok_response)]
               (with_self (set_start_time 1000) (new_world 60 2 1000)))).

(** The binary64 value of a list length. *)
Definition float_of_nat (n : nat) : float :=
  PrimFloat.of_uint63 (Uint63.of_Z (Z.of_nat n)).

(** [int(n * c)] evaluated in binary64 is [i]: [i <= n * c < i + 1]. *)
Definition float_index_is (n : nat) (c : float) (i : nat) : bool :=
  let x := PrimFloat.mul (float_of_nat n) c in
  PrimFloat.leb (float_of_nat i) x && PrimFloat.ltb x (float_of_nat (S i)).

(** The rational reading of [int(n * 0.95)] and [int(n * 0.99)] is what
    binary64 gives; the two constants are the doubles Python reads [0.95]
    and [0.99] as. *)
Definition float_index_agrees (n : nat) : bool :=
  float_index_is n 0x1.e666666666666p-1%float (scaled_index n (95 # 100)) &&
  float_index_is n 0x1.fae147ae147aep-1%float (scaled_index n (99 # 100)).

(** The probe got a response with status [c]. *)
Definition responded_with (c : Z) (p : string * NetOutcome) : bool :=
  match snd p with
  | Responds _ r => (resp_status r =? c)%Z
  | _ => false
  end.

(** The probe got a response with a status in [200, 400). *)
Definition succeeded (p : string * NetOutcome) : bool :=
  match snd p with
  | Responds _ r => ((200 <=? resp_status r)%Z && (resp_status r <? 400)%Z)%bool
  | _ => false
  end.

(** The probe got a response at all. *)
Definition responded (p : string * NetOutcome) : bool :=
  match snd p with
  | Responds _ _ => true
  | _ => false
  end.

(** The error description of a probe that got none. *)
Definition error_of (p : string * NetOutcome) : option string :=
  match snd p with
  | Responds _ _ => None
  | TimesOut _ => Some "timeout"
  | Fails _ msg => Some msg
  end.

(** The records of one endpoint, in order. *)
Definition records_of (ep : string) (rs : list ResponseRecord) : list ResponseRecord :=
  List.filter (fun r => String.eqb ep (endpoint r)) rs.

(** Their latencies added up from 0, in order. *)
Definition latency_total (rs : list ResponseRecord) : Q :=
  foldl (fun acc r => (acc + latency_ms r)%Q) 0%Q rs.

(** Their status codes counted. *)
Definition status_histogram (rs : list ResponseRecord) : histogram :=
  foldl (fun h r => hist_incr (status_code r) h) ∅ rs.

(** What the tally of [generate_reports] holds for an endpoint before the
    averages are taken. *)
Definition tallied (ep : string) (rs : list ResponseRecord) : option EndpointStats :=
  match records_of ep rs with
  | [] => None
  | _ :: _ =>
      Some {| ep_count := length (records_of ep rs);
              avg_latency := latency_total (records_of ep rs);
              ep_status_codes := status_histogram (records_of ep rs) |}
  end.

(** What a session has added so far, relative to its start [w]: the same
    records [rs] at the end of [self.responses] and of the log, all of them
    of endpoints among [sampled], and as many requests counted. *)
Definition progress (sampled : list string) (w w1 : World) : Prop :=
  exists rs,
    responses (self w1) = responses (self w) ++ rs /\
    openapi_responses_jsonl (files w1) = openapi_responses_jsonl (files w) ++ rs /\
    Forall (fun r => endpoint r ∈ sampled) rs /\
    total_requests (stats (self w1)) = total_requests (stats (self w)) + length rs /\
    (stats_consistent (stats (self w)) -> stats_consistent (stats (self w1))).

(** What the events of a stretch of rounds may be: a gather that starts
    before [end_time] and before any signal, with one to five tasks; a
    sleep; but no report. *)
Definition round_event (env : Env) (end_time : Q) (e : Event) : Prop :=
  match e with
  | EvGather t0 n _ =>
      (t0 < end_time)%Q /\ 1 <= n <= 5 /\
      (forall s, signal_at env = Some s -> (t0 < s)%Q)
  | EvSleep _ _ => True
  | EvGenerateReports _ => False
  end.

(** The flag is only set while no signal has arrived. *)
Definition flag_is_current (env : Env) (w : World) : Prop :=
  running (self w) = true -> signal_due env (clock w) = false.

Definition rounds_so_far (env : Env) (end_time : Q) (w w1 : World) : Prop :=
  flag_is_current env w1 /\
  exists evs, trace w1 = trace w ++ evs /\ Forall (round_event env end_time) evs.

(** * Properties *)

(** ** The statistics *)

Lemma hist_total_insert_fresh (k : Z) (c : nat) (h : histogram) :
  h !! k = None -> hist_total (<[k := c]> h) = c + hist_total h.
Proof.
  intros Hk. unfold hist_total.
  rewrite (map_fold_insert_L (fun (_ : Z) (c acc : nat) => c + acc) 0 k c h); [done | | done].
  intros; lia.
Qed.

Lemma hist_total_incr (k : Z) (h : histogram) :
  hist_total (hist_incr k h) = S (hist_total h).
Proof.
  unfold hist_incr. destruct (h !! k) as [c |] eqn:Hk; simpl.
  - rewrite <- (insert_delete_eq h k (S c)).
    rewrite <- (insert_delete_id h k c Hk) at 2.
    rewrite !hist_total_insert_fresh by apply lookup_delete_eq. lia.
  - rewrite hist_total_insert_fresh by done. lia.
Qed.

Lemma hist_total_empty : hist_total ∅ = 0.
Proof. unfold hist_total. apply map_fold_empty. Qed.

(** [make_sample_request] always returns, and this is what it returns and
    does. *)
Lemma make_sample_request_runs (o : NetOutcome) (endpoint : string) (w : World) :
  make_sample_request o endpoint w =
    (Ok (record_of o endpoint (clock w)),
     with_self (with_stats (probe_effect o (clock w))) w).
Proof.
  destruct o as [d r | d | d msg];
    unfold make_sample_request, bind, try_except, time_time, session_request,
           update_stats, modify, ret, raise; simpl.
  - destruct (read_body (resp_body r)) as [body kind]; reflexivity.
  - reflexivity.
  - reflexivity.
Qed.

Lemma initial_stats_consistent : stats_consistent initial_stats.
Proof.
  unfold stats_consistent, counters_add_up, responses_accounted; simpl.
  rewrite hist_total_empty. done.
Qed.

Lemma probe_effect_consistent (o : NetOutcome) (t : Q) (st : Stats) :
  stats_consistent st -> stats_consistent (probe_effect o t st).
Proof.
  unfold stats_consistent, counters_add_up, responses_accounted.
  intros (Hc & Hh & Ht). destruct o as [d r | d | d msg]; simpl.
  - rewrite hist_total_incr, length_app; simpl.
    destruct ((200 <=? resp_status r)%Z && (resp_status r <? 400)%Z); lia.
  - rewrite length_app; simpl. lia.
  - rewrite length_app; simpl. lia.
Qed.

Lemma run_probes_runs (probes : list (string * NetOutcome)) (w : World) :
  run_probes probes w = (Ok tt, after_probes probes w).
Proof.
  revert w. induction probes as [| [endpoint o] rest IH]; intros w; simpl.
  - reflexivity.
  - unfold bind. rewrite make_sample_request_runs. apply IH.
Qed.

Lemma after_probes_consistent (probes : list (string * NetOutcome)) (w : World) :
  stats_consistent (stats (self w)) ->
  stats_consistent (stats (self (after_probes probes w))).
Proof.
  revert w. induction probes as [| [endpoint o] rest IH]; intros w Hw; simpl.
  - exact Hw.
  - apply IH. simpl. apply probe_effect_consistent, Hw.
Qed.

(** A probe touches the statistics and nothing else. *)
Lemma after_probes_frame (probes : list (string * NetOutcome)) (w : World) :
  let w' := after_probes probes w in
  files w' = files w /\ clock w' = clock w /\ trace w' = trace w /\
  responses (self w') = responses (self w) /\ running (self w') = running (self w).
Proof.
  revert w. induction probes as [| [endpoint o] rest IH]; intros w; simpl.
  - done.
  - destruct (IH (with_self (with_stats (probe_effect o (clock w))) w))
      as (H1 & H2 & H3 & H4 & H5).
    simpl in *. rewrite H1, H2, H3, H4, H5. done.
Qed.

(** C3.  For every endpoint and every outcome of the request,
    [make_sample_request] returns (it does not raise) one record; the record
    falls in exactly one of the classes success, timeout and connection
    error; a timeout gives status 408, text "Request Timeout" and error
    "timeout", any other failure gives status 0 and text "Connection Error",
    and a received response gives its own status code. *)
Theorem make_sample_request_classification
    (o : NetOutcome) (endpoint : string) (w : World) :
  exists r w',
    make_sample_request o endpoint w = (Ok r, w') /\
    match o with
    | Responds _ response =>
        is_success r /\ ~ is_timeout r /\ ~ is_connection_error r /\
        status_code r = resp_status response
    | TimesOut _ =>
        is_timeout r /\ ~ is_success r /\ ~ is_connection_error r /\
        status_code r = 408%Z /\ status_text r = "Request Timeout" /\
        error r = Some "timeout"
    | Fails _ msg =>
        is_connection_error r /\ ~ is_success r /\ ~ is_timeout r /\
        status_code r = 0%Z /\ status_text r = "Connection Error" /\
        error r = Some msg
    end.
Proof.
  eexists _, _. split; [apply make_sample_request_runs |].
  unfold is_success, is_timeout, is_connection_error.
  destruct o as [d r | d | d msg]; simpl; repeat split;
    first [ done
          | eexists; reflexivity
          | by intros (H & _)
          | by intros (_ & _ & H)
          | by intros (_ & _ & [x H]) ].
Qed.

(** C4 as stated fails: after one timeout the request is counted, but
    neither the histogram nor the latency list has an entry for it. *)
Lemma histogram_misses_timeout :
  let w := snd (run_probes [("http://localhost:8080/wrk2-api/user/login", TimesOut 5)]
                           (new_world 60 2 0)) in
  total_requests (stats (self w)) = 1 /\
  hist_total (status_codes (stats (self w))) = 0 /\
  length (response_times (stats (self w))) = 0 /\
  ~ (hist_total (status_codes (stats (self w))) = total_requests (stats (self w)) /\
     length (response_times (stats (self w))) = total_requests (stats (self w))).
Proof.
  vm_compute. repeat split. intros [H _]. discriminate H.
Qed.

(** C4, amended.  After any sequence of probes on a fresh monitor, the
    counts of the status-code histogram sum to the length of the latency
    list, and that number plus the length of the error list is
    [total_requests].  A received response adds its status code to the
    histogram and its latency to the end of the latency list; a timeout or a
    connection error adds its description to the error list and leaves the
    histogram and the latency list as they were. *)
Theorem histogram_counts_received_responses
    (probes : list (string * NetOutcome)) (o : NetOutcome) (endpoint : string)
    (d i : Z) (t0 : Q) :
  exists w1 r w2,
    run_probes probes (new_world d i t0) = (Ok tt, w1) /\
    make_sample_request o endpoint w1 = (Ok r, w2) /\
    responses_accounted (stats (self w1)) /\
    responses_accounted (stats (self w2)) /\
    let st1 := stats (self w1) in
    let st2 := stats (self w2) in
    match o with
    | Responds el response =>
        status_codes st2 = hist_incr (resp_status response) (status_codes st1) /\
        (exists latency, response_times st2 = response_times st1 ++ [latency] /\
                         (latency == el * 1000)%Q) /\
        errors st2 = errors st1
    | TimesOut _ =>
        status_codes st2 = status_codes st1 /\
        response_times st2 = response_times st1 /\
        errors st2 = errors st1 ++ ["timeout"]
    | Fails _ msg =>
        status_codes st2 = status_codes st1 /\
        response_times st2 = response_times st1 /\
        errors st2 = errors st1 ++ [msg]
    end.
Proof.
  eexists _, _, _.
  split; [apply run_probes_runs |].
  split; [apply make_sample_request_runs |].
  pose proof (after_probes_consistent probes (new_world d i t0) initial_stats_consistent)
    as Hw1.
  split; [apply Hw1 |].
  split; [apply (probe_effect_consistent o _ _ Hw1) |].
  destruct o as [el response | el | el msg]; simpl; repeat split.
  eexists; split; [reflexivity | ring].
Qed.

(** C8 as stated fails: a call that times out changes the statistics. *)
Lemma make_sample_request_changes_stats :
  let w := new_world 60 2 0 in
  let w' := snd (make_sample_request (TimesOut 5)
                   "http://localhost:8080/wrk2-api/user/login" w) in
  stats (self w') <> stats (self w) /\
  total_requests (stats (self w)) = 0 /\ total_requests (stats (self w')) = 1 /\
  failed_requests (stats (self w')) = 1 /\ errors (stats (self w')) = ["timeout"].
Proof.
  vm_compute. repeat split. intros H. discriminate H.
Qed.

(** C8, amended.  [make_sample_request] updates the statistics itself: for
    every outcome it returns with [total_requests] one higher than before.
    What it leaves to its caller is the keeping of the record: the list
    [self.responses], the log and the other files, the clock and the rest of
    the monitor object are as before the call. *)
Theorem make_sample_request_effects (o : NetOutcome) (endpoint : string) (w : World) :
  exists r w',
    make_sample_request o endpoint w = (Ok r, w') /\
    total_requests (stats (self w')) = S (total_requests (stats (self w))) /\
    stats (self w') <> stats (self w) /\
    responses (self w') = responses (self w) /\
    files w' = files w /\
    clock w' = clock w /\
    trace w' = trace w /\
    running (self w') = running (self w) /\
    start_time (self w') = start_time (self w) /\
    duration (self w') = duration (self w) /\
    sample_interval (self w') = sample_interval (self w) /\
    endpoints (self w') = endpoints (self w).
Proof.
  eexists _, _. split; [apply make_sample_request_runs |].
  assert (Ht : total_requests (probe_effect o (clock w) (stats (self w)))
               = S (total_requests (stats (self w)))).
  { destruct o; reflexivity. }
  simpl. repeat split; try done.
  intros Heq. rewrite Heq in Ht. lia.
Qed.

(** C10.  After any sequence of probes on a fresh monitor,
    [total_requests = successful_requests + failed_requests]; one more probe
    raises [total_requests] by one and exactly one of the two other
    counters by one: [successful_requests] when a response with a status in
    [200, 400) was received, [failed_requests] on any other status, on a
    timeout and on a connection error; and the equation holds again. *)
Theorem counters_add_up_after_probes
    (probes : list (string * NetOutcome)) (o : NetOutcome) (endpoint : string)
    (d i : Z) (t0 : Q) :
  exists w1 r w2,
    run_probes probes (new_world d i t0) = (Ok tt, w1) /\
    make_sample_request o endpoint w1 = (Ok r, w2) /\
    let st1 := stats (self w1) in
    let st2 := stats (self w2) in
    counters_add_up st1 /\
    counters_add_up st2 /\
    total_requests st2 = S (total_requests st1) /\
    match o with
    | Responds _ response =>
        if decide (200 <= resp_status response < 400)%Z
        then successful_requests st2 = S (successful_requests st1) /\
             failed_requests st2 = failed_requests st1
        else successful_requests st2 = successful_requests st1 /\
             failed_requests st2 = S (failed_requests st1)
    | TimesOut _ | Fails _ _ =>
        successful_requests st2 = successful_requests st1 /\
        failed_requests st2 = S (failed_requests st1)
    end.
Proof.
  eexists _, _, _.
  split; [apply run_probes_runs |].
  split; [apply make_sample_request_runs |].
  cbv zeta.
  pose proof (after_probes_consistent probes (new_world d i t0) initial_stats_consistent)
    as Hw1.
  split; [apply Hw1 |].
  split; [apply (probe_effect_consistent o _ _ Hw1) |].
  destruct o as [el response | el | el msg]; simpl; repeat split.
  case_decide as Hr.
  - replace ((200 <=? resp_status response)%Z && (resp_status response <? 400)%Z)
      with true; [done |].
    symmetry. apply andb_true_iff. split; [apply Z.leb_le | apply Z.ltb_lt]; lia.
  - replace ((200 <=? resp_status response)%Z && (resp_status response <? 400)%Z)
      with false; [done |].
    symmetry. apply andb_false_iff.
    destruct (Z.leb_spec 200 (resp_status response)); [right | left; done].
    apply Z.ltb_ge. lia.
Qed.

(** ** The reports *)

Lemma int_nonneg (x : Q) : (0 <= x)%Q -> int x = Qfloor x.
Proof.
  intros Hx. unfold int. destruct (Qlt_le_dec x 0) as [Hlt | _]; [| reflexivity].
  exfalso. apply (Qlt_not_le _ _ Hlt Hx).
Qed.

Lemma scaled_index_percent (n a : nat) :
  scaled_index n (Z.of_nat a # 100) = n * a / 100.
Proof.
  unfold scaled_index. rewrite int_nonneg.
  - unfold Qfloor, Qmult, inject_Z. cbn [Qnum Qden].
    change (Z.pos (1 * 100)) with (Z.of_nat 100).
    rewrite <- Nat2Z.inj_mul, <- Nat2Z.inj_div. apply Nat2Z.id.
  - unfold Qle, Qmult, inject_Z. cbn [Qnum Qden]. lia.
Qed.

Lemma percent_index_lt (n a : nat) : 0 < n -> a < 100 -> n * a / 100 < n.
Proof.
  intros Hn Ha. apply Nat.Div0.div_lt_upper_bound. nia.
Qed.

Lemma min_sorted (x : Q) (rest : list Q) :
  StronglySorted Qle (x :: rest) -> Py.min (x :: rest) = Ok x.
Proof.
  intros Hs. apply StronglySorted_inv in Hs as [_ Hall]. simpl. f_equal.
  induction rest as [| a rest IH]; simpl; [reflexivity |].
  apply Forall_cons in Hall as [Ha Hall].
  destruct (Qlt_le_dec a x) as [Hlt | _].
  - exfalso. apply (Qlt_not_le _ _ Hlt Ha).
  - apply IH, Hall.
Qed.

Lemma max_sorted (rest : list Q) (x : Q) :
  StronglySorted Qle (x :: rest) ->
  exists hi y, Py.max (x :: rest) = Ok hi /\ last (x :: rest) = Some y /\ (hi == y)%Q.
Proof.
  simpl. revert x. induction rest as [| a rest IH]; intros x Hs; simpl.
  - exists x, x. split; [reflexivity | split; reflexivity].
  - apply StronglySorted_inv in Hs as [Hs Hall].
    apply Forall_cons in Hall as [Ha Hall].
    destruct (Qlt_le_dec x a) as [Hlt | Hge].
    + destruct (IH a Hs) as (hi & y & Hhi & Hy & Heq).
      exists hi, y. split; [exact Hhi |]. split; [| exact Heq].
      destruct rest; exact Hy.
    + assert (Hxa : (x == a)%Q) by (apply Qle_antisym; assumption).
      assert (Hs' : StronglySorted Qle (x :: rest)).
      { constructor; [| exact Hall]. apply StronglySorted_inv in Hs as [Hs _]. exact Hs. }
      destruct (IH x Hs') as (hi & y & Hhi & Hy & Heq).
      destruct rest as [| b rest].
      * exists x, a. split; [reflexivity | split; [reflexivity | exact Hxa]].
      * exists hi, y. split; [exact Hhi |]. split; [exact Hy | exact Heq].
Qed.

Lemma truediv_ok (a b : Q) : ~ (b == 0)%Q -> truediv a b = Ok (a / b)%Q.
Proof.
  intros Hb. unfold truediv. destruct (Qeq_bool b 0) eqn:E; [| reflexivity].
  apply Qeq_bool_iff in E. contradiction.
Qed.

Lemma Q_of_nat_nonzero (n : nat) : 0 < n -> ~ (Q_of_nat n == 0)%Q.
Proof.
  intros Hn. unfold Q_of_nat, Qeq, inject_Z; simpl. lia.
Qed.

Lemma getitem_lt {A} (l : list A) (i : nat) :
  i < length l -> exists x, getitem l i = Ok x /\ l !! i = Some x.
Proof.
  intros Hi. destruct (lookup_lt_is_Some_2 l i Hi) as [x Hx].
  exists x. unfold getitem. rewrite Hx. done.
Qed.

Lemma sorted_length (l : list Q) : length (sorted l) = length l.
Proof. unfold sorted. by rewrite merge_sort_Permutation. Qed.

Lemma latency_stats_spec (l : list Q) :
  l <> [] ->
  let times := sorted l in
  let n := length l in
  exists ls lo hi,
    compute_latency_stats l = Ok (Some ls) /\
    times !! 0 = Some lo /\ min_ms ls = lo /\
    times !! (n - 1) = Some hi /\ (max_ms ls == hi)%Q /\
    mean_ms ls = (sum times / Q_of_nat n)%Q /\
    n / 2 < n /\ times !! (n / 2) = Some (median_ms ls) /\
    n * 95 / 100 < n /\ times !! (n * 95 / 100) = Some (p95_ms ls) /\
    n * 99 / 100 < n /\ times !! (n * 99 / 100) = Some (p99_ms ls).
Proof.
  intros Hne times n.
  assert (Hn : 0 < n) by (subst n; destruct l; [done | simpl; lia]).
  assert (Hlen : length times = n) by apply sorted_length.
  assert (Hs : StronglySorted Qle times) by (apply StronglySorted_merge_sort; apply _).
  unfold compute_latency_stats. destruct l as [| x0 l0]; [done |].
  cbv zeta. fold times. rewrite Hlen.
  destruct times as [| t ts] eqn:Ht; [simpl in Hlen; lia |].
  rewrite (min_sorted t ts Hs).
  destruct (max_sorted ts t Hs) as (hi & y & Hhi & Hy & Heq). rewrite Hhi.
  rewrite (truediv_ok _ _ (Q_of_nat_nonzero n Hn)).
  change (95 # 100) with (Z.of_nat 95 # 100).
  change (99 # 100) with (Z.of_nat 99 # 100).
  rewrite !scaled_index_percent.
  assert (H2 : n / 2 < n) by (apply Nat.div_lt; lia).
  assert (H95 : n * 95 / 100 < n) by (apply percent_index_lt; lia).
  assert (H99 : n * 99 / 100 < n) by (apply percent_index_lt; lia).
  destruct (getitem_lt (t :: ts) (n / 2)) as (med & Hmed & Hmed'); [lia |].
  destruct (getitem_lt (t :: ts) (n * 95 / 100)) as (p95 & Hp95 & Hp95'); [lia |].
  destruct (getitem_lt (t :: ts) (n * 99 / 100)) as (p99 & Hp99 & Hp99'); [lia |].
  rewrite Hmed, Hp95, Hp99. simpl rbind.
  eexists _, t, y. split; [reflexivity |]. simpl.
  rewrite last_lookup in Hy. rewrite Hlen in Hy. 
  replace (n - 1) with (Init.Nat.pred n) by lia.
  repeat split; try done.
  rewrite Nat.sub_0_r. exact Hy.
Qed.

Lemma compute_latency_stats_ok (l : list Q) :
  exists r, compute_latency_stats l = Ok r.
Proof.
  destruct l as [| x l']; [by eexists |].
  destruct (latency_stats_spec (x :: l')) as (ls & ? & ? & H & _); [done |].
  eauto.
Qed.

Lemma mapM_ok {A B} (f : A -> result B) (l : list A) :
  (forall x, x ∈ l -> exists y, f x = Ok y) -> exists ys, mapM f l = Ok ys /\ length ys = length l.
Proof.
  induction l as [| x l IH]; intros Hf; simpl.
  - by exists [].
  - destruct (Hf x) as [y Hy]; [left |]. rewrite Hy. simpl.
    destruct IH as (ys & Hys & Hl); [intros z Hz; apply Hf; by right |].
    rewrite Hys. simpl. exists (y :: ys). simpl. by rewrite Hl.
Qed.

Lemma average_endpoint_ok (item : string * EndpointStats) :
  exists y, average_endpoint item = Ok y.
Proof.
  destruct item as [endpoint s]. unfold average_endpoint.
  destruct (0 <? ep_count s)%nat eqn:E; [| by eexists].
  apply Nat.ltb_lt in E.
  rewrite (truediv_ok _ _ (Q_of_nat_nonzero _ E)). by eexists.
Qed.

Lemma endpoint_report_ok (rs : list ResponseRecord) :
  exists d, endpoint_report rs = Ok d.
Proof.
  unfold endpoint_report.
  destruct (mapM_ok average_endpoint (foldl tally_response [] rs)) as (ys & H & _).
  - intros x _. apply average_endpoint_ok.
  - eauto.
Qed.

Lemma csv_rows_ok (h : histogram) : exists rows, csv_rows h = Ok rows.
Proof.
  unfold csv_rows.
  match goal with |- context [mapM ?f ?l] => destruct (mapM_ok f l) as (ys & H & _) end.
  - intros [k c] _. destruct (0 <? hist_total h)%nat eqn:E; [| by eexists].
    apply Nat.ltb_lt in E.
    rewrite (truediv_ok _ _ (Q_of_nat_nonzero _ E)). by eexists.
  - eauto.
Qed.

Lemma csv_rows_no_total (h : histogram) :
  hist_total h = 0 ->
  exists rows, csv_rows h = Ok rows /\ Forall (fun row => row_percentage row = 0%Q) rows.
Proof.
  intros H0. unfold csv_rows. rewrite H0. simpl.
  induction (sorted_items h) as [| [k c] items IH]; simpl.
  - by exists [].
  - destruct IH as (rows & Hrows & Hall). rewrite Hrows. simpl.
    eexists. split; [reflexivity |]. constructor; [reflexivity | exact Hall].
Qed.

Lemma build_summary_ok (m : Monitor) (ls : option LatencyStats) (t : Q) :
  start_time m = Some t ->
  exists s, build_summary m ls = Ok s /\
    latency_statistics s = ls /\
    success_rate_percent s =
      (Q_of_nat (successful_requests (stats m)) /
       Q_of_nat (Nat.max 1 (total_requests (stats m))) * 100)%Q.
Proof.
  intros Ht. unfold build_summary. rewrite Ht. simpl rbind.
  rewrite truediv_ok by (apply Q_of_nat_nonzero; lia).
  simpl. eexists. split; [reflexivity |]. split; reflexivity.
Qed.

(** [generate_reports] returns once the session has a start time, and this
    is what it leaves. *)
Lemma generate_reports_runs (w : World) (t : Q) :
  start_time (self w) = Some t ->
  exists ls summary rows eps,
    compute_latency_stats (response_times (stats (self w))) = Ok ls /\
    build_summary (self w) ls = Ok summary /\
    csv_rows (status_codes (stats (self w))) = Ok rows /\
    endpoint_report (responses (self w)) = Ok eps /\
    generate_reports w =
      (Ok tt,
       {| self := self w;
          files := {| openapi_responses_jsonl := openapi_responses_jsonl (files w);
                      response_summary_json := Some summary;
                      status_code_distribution_csv := Some rows;
                      endpoint_performance_json := Some eps |};
          clock := clock w;
          trace := trace w ++ [EvGenerateReports (clock w)] |}).
Proof.
  intros Ht.
  destruct (compute_latency_stats_ok (response_times (stats (self w)))) as [ls Hls].
  destruct (build_summary_ok (self w) ls t Ht) as (summary & Hsum & _).
  destruct (csv_rows_ok (status_codes (stats (self w)))) as [rows Hrows].
  destruct (endpoint_report_ok (responses (self w))) as [eps Heps].
  exists ls, summary, rows, eps. repeat split; try assumption.
  unfold generate_reports, bind, get, modify, lift; simpl.
  rewrite Hls, Hsum; simpl. rewrite Hrows; simpl. rewrite Heps. reflexivity.
Qed.

(** C5.  For a non-empty list of [n] response times, [times] being the
    list sorted ascending: the statistics are computed (nothing raises), min
    is [times[0]], max equals [times[n-1]], mean is [sum(times) / n], median
    is [times[n // 2]], p95 is [times[floor(n * 0.95)]] and p99 is
    [times[floor(n * 0.99)]], each taken as it stands in the list, and every
    index is below [n]. *)
Theorem latency_statistics_by_index (response_times : list Q) :
  response_times <> [] ->
  let times := sorted response_times in
  let n := length response_times in
  StronglySorted Qle times /\ times ≡ₚ response_times /\
  exists ls lo hi,
    compute_latency_stats response_times = Ok (Some ls) /\
    times !! 0 = Some lo /\ min_ms ls = lo /\
    times !! (n - 1) = Some hi /\ (max_ms ls == hi)%Q /\
    mean_ms ls = (sum times / Q_of_nat n)%Q /\
    n / 2 < n /\ times !! (n / 2) = Some (median_ms ls) /\
    n * 95 / 100 < n /\ times !! (n * 95 / 100) = Some (p95_ms ls) /\
    n * 99 / 100 < n /\ times !! (n * 99 / 100) = Some (p99_ms ls).
Proof.
  intros Hne times n.
  split; [apply StronglySorted_merge_sort; apply _ |].
  split; [apply merge_sort_Permutation |].
  apply latency_stats_spec, Hne.
Qed.

(** C5 at the response times 30, 10, 20, 20. *)
Lemma latency_statistics_by_index_witness :
  [30; 10; 20; 20]%Q <> [] /\
  let times := sorted [30; 10; 20; 20]%Q in
  StronglySorted Qle times /\ times ≡ₚ [30; 10; 20; 20]%Q /\
  exists ls lo hi,
    compute_latency_stats [30; 10; 20; 20]%Q = Ok (Some ls) /\
    times !! 0 = Some lo /\ min_ms ls = lo /\
    times !! (4 - 1) = Some hi /\ (max_ms ls == hi)%Q /\
    mean_ms ls = (sum times / Q_of_nat 4)%Q /\
    4 / 2 < 4 /\ times !! (4 / 2) = Some (median_ms ls) /\
    4 * 95 / 100 < 4 /\ times !! (4 * 95 / 100) = Some (p95_ms ls) /\
    4 * 99 / 100 < 4 /\ times !! (4 * 99 / 100) = Some (p99_ms ls).
Proof.
  split; [discriminate |].
  apply (latency_statistics_by_index [30; 10; 20; 20]%Q). discriminate.
Defined.

(** C6 as stated fails: for the latencies 10, 20, 30, 40, 50 the median, the
    element at index 2, is 30 and not 50. *)
Lemma median_of_five_is_not_50 :
  exists ls,
    compute_latency_stats [10; 20; 30; 40; 50]%Q = Ok (Some ls) /\
    sorted [10; 20; 30; 40; 50]%Q !! 2 = Some (median_ms ls) /\
    median_ms ls = 30%Q /\
    ~ (median_ms ls == 50)%Q.
Proof.
  eexists. split; [vm_compute; reflexivity |]. simpl.
  split; [vm_compute; reflexivity |]. split; [reflexivity |].
  intros H. discriminate H.
Qed.

(** C6, amended.  For the latencies 10, 20, 30, 40, 50 (n = 5) the summary
    has median = 30 (index 5 // 2 = 2), p95 = 50 (index floor(5 * 0.95) = 4)
    and p99 = 50 (index floor(5 * 0.99) = 4). *)
Theorem percentiles_of_five :
  exists ls,
    compute_latency_stats [10; 20; 30; 40; 50]%Q = Ok (Some ls) /\
    5 / 2 = 2 /\ median_ms ls = 30%Q /\
    scaled_index 5 (95 # 100) = 4 /\ p95_ms ls = 50%Q /\
    scaled_index 5 (99 # 100) = 4 /\ p99_ms ls = 50%Q.
Proof.
  eexists. split; [vm_compute; reflexivity |]. simpl.
  repeat split.
Qed.

(** C7.  When no request was made ([total_requests = 0], hence no
    latencies) in a started session with consistent statistics,
    [generate_reports] returns without raising; [latency_statistics] is the
    empty value, [success_rate_percent] is 0, and every percentage of the
    status-code table is 0. *)
Theorem generate_reports_nothing_collected (w : World) (t0 : Q) :
  start_time (self w) = Some t0 ->
  stats_consistent (stats (self w)) ->
  total_requests (stats (self w)) = 0 ->
  exists w' summary rows eps,
    generate_reports w = (Ok tt, w') /\
    response_times (stats (self w)) = [] /\
    response_summary_json (files w') = Some summary /\
    latency_statistics summary = None /\
    success_rate_percent summary = 0%Q /\
    status_code_distribution_csv (files w') = Some rows /\
    Forall (fun row => row_percentage row = 0%Q) rows /\
    endpoint_performance_json (files w') = Some eps.
Proof.
  intros Ht (Hc & Hh & Htot) H0.
  unfold counters_add_up in Hc.
  assert (Hsucc : successful_requests (stats (self w)) = 0) by lia.
  assert (Hhist : hist_total (status_codes (stats (self w))) = 0) by lia.
  assert (Htimes : response_times (stats (self w)) = []).
  { apply length_zero_iff_nil. lia. }
  destruct (generate_reports_runs w t0 Ht) as (ls & summary & rows & eps & Hls & Hsum & Hrows & Heps & Hrun).
  destruct (csv_rows_no_total _ Hhist) as (rows' & Hrows' & Hall).
  rewrite Hrows' in Hrows. injection Hrows as <-.
  rewrite Htimes in Hls. simpl in Hls. injection Hls as <-.
  destruct (build_summary_ok (self w) None t0 Ht) as (s & Hs & Hlat & Hrate).
  rewrite Hs in Hsum. injection Hsum as <-.
  eexists _, s, rows', eps. split; [exact Hrun |]. simpl.
  repeat split; try assumption.
  rewrite Hrate, Hsucc, H0. reflexivity.
Qed.

(** C7 at a session that has just started. *)
Lemma generate_reports_nothing_collected_witness :
  let w := with_self (set_start_time 1000) (new_world 60 2 1000) in
  exists w' summary rows eps,
    generate_reports w = (Ok tt, w') /\
    response_times (stats (self w)) = [] /\
    response_summary_json (files w') = Some summary /\
    latency_statistics summary = None /\
    success_rate_percent summary = 0%Q /\
    status_code_distribution_csv (files w') = Some rows /\
    Forall (fun row => row_percentage row = 0%Q) rows /\
    endpoint_performance_json (files w') = Some eps.
Proof.
  apply (generate_reports_nothing_collected
           (with_self (set_start_time 1000) (new_world 60 2 1000)) 1000).
  - reflexivity.
  - apply initial_stats_consistent.
  - reflexivity.
Defined.

(** ** The rounds *)

Lemma after_probes_clock (probes : list (string * NetOutcome)) (w : World) :
  clock (after_probes probes w) = clock w.
Proof. apply (after_probes_frame probes w). Qed.

Lemma run_all_runs (tasks : list Task) (w : World) :
  run_all tasks w =
    (Ok (map (fun t => inl (task_record (clock w) t)) tasks),
     after_probes (task_probes tasks) w).
Proof.
  revert w. induction tasks as [| t rest IH]; intros w; simpl.
  - reflexivity.
  - unfold bind, settle, run_task. rewrite make_sample_request_runs.
    rewrite IH. reflexivity.
Qed.

Lemma keep_nil (w : World) : keep [] w = w.
Proof.
  destruct w as [[] [] ? ?]. unfold keep; simpl. by rewrite !app_nil_r.
Qed.

Lemma keep_cons (r : ResponseRecord) (rs : list ResponseRecord) (w : World) :
  keep rs (with_files (append_log r) (with_self (append_response r) w)) = keep (r :: rs) w.
Proof.
  unfold keep; simpl. by rewrite <- !app_assoc.
Qed.

Lemma record_responses_runs (rs : list ResponseRecord) (w : World) :
  record_responses (map inl rs) w = (Ok tt, keep rs w).
Proof.
  revert w. induction rs as [| r rs IH]; intros w; simpl.
  - unfold ret. by rewrite keep_nil.
  - unfold bind, modify. rewrite IH. by rewrite keep_cons.
Qed.

Lemma gather_runs (env : Env) (tasks : list Task) (w : World) :
  gather env tasks w =
    (Ok (map (fun t => inl (task_record (clock w) t)) tasks), gathered env tasks w).
Proof.
  unfold gather, bind, time_time, await, modify, ret. rewrite run_all_runs. reflexivity.
Qed.

Lemma settle_round_runs (env : Env) (tasks : list Task) (w : World) :
  settle_round env tasks w = (Ok tt, settled env tasks w).
Proof.
  destruct tasks as [| t rest]; [reflexivity |].
  unfold settle_round, settled, bind. rewrite gather_runs.
  rewrite <- (record_responses_runs _ (gathered env (t :: rest) w)).
  by rewrite map_map.
Qed.

Lemma signal_handler_stopped (w : World) :
  running (self w) = false -> signal_handler w = w.
Proof. destruct w as [[] ? ? ?]; simpl. intros ->. reflexivity. Qed.

(** With the flag cleared no task is created. *)
Lemma build_tasks_stopped (env : Env) (k : nat) (eps : list string) (acc : list Task)
    (w : World) :
  running (self w) = false -> build_tasks env k eps acc w = (Ok acc, w).
Proof.
  intros Hr. destruct eps as [| ep eps]; [reflexivity |].
  cbn [build_tasks]. unfold bind, modify, get, signal_in_dispatch.
  destruct (dispatch_signal env k) as [j |];
    [destruct (Nat.eqb j (length acc)) |];
    rewrite ?(signal_handler_stopped w Hr), Hr; reflexivity.
Qed.

(** With the flag set a task is created per endpoint, until a signal arrives
    between two of them. *)
Lemma build_tasks_running (env : Env) (k : nat) (eps : list string) (acc : list Task)
    (w : World) :
  running (self w) = true ->
  build_tasks env k eps acc w =
    match dispatch_signal env k with
    | Some j =>
        if ((length acc <=? j)%nat && (j <? length acc + length eps)%nat)%bool
        then (Ok (acc ++ map (task_for env k) (take (j - length acc) eps)),
              signal_handler w)
        else (Ok (acc ++ map (task_for env k) eps), w)
    | None => (Ok (acc ++ map (task_for env k) eps), w)
    end.
Proof.
  intros Hr. revert acc. induction eps as [| ep eps IH]; intros acc.
  - cbn [build_tasks map length]. unfold ret. rewrite app_nil_r.
    destruct (dispatch_signal env k) as [j |]; [| reflexivity].
    destruct (Nat.leb_spec (length acc) j); simpl; [| reflexivity].
    destruct (Nat.ltb_spec j (length acc + 0)); [lia | reflexivity].
  - cbn [build_tasks]. unfold bind at 1, modify at 1, signal_in_dispatch.
    destruct (dispatch_signal env k) as [j |] eqn:Ej.
    + destruct (Nat.eqb_spec j (length acc)) as [-> | Hne].
      * unfold bind, get. cbn [signal_handler with_self self set_running running negb].
        rewrite Nat.leb_refl. cbn [length andb].
        replace (length acc <? length acc + S (length eps))%nat with true
          by (symmetry; apply Nat.ltb_lt; lia).
        rewrite Nat.sub_diag. cbn [take map]. by rewrite app_nil_r.
      * unfold bind at 1, get at 1. rewrite Hr. cbn [negb].
        change {| task_endpoint := ep; task_outcome := probe env k ep |}
          with (task_for env k ep).
        rewrite IH, length_app. cbn [length].
        destruct (Nat.leb_spec (length acc) j) as [Hle | Hgt].
        -- replace (length acc + 1 <=? j)%nat with true
             by (symmetry; apply Nat.leb_le; lia).
           cbn [andb].
           replace (j <? length acc + 1 + length eps)%nat
             with (j <? length acc + S (length eps))%nat
             by (f_equal; lia).
           destruct (j <? length acc + S (length eps))%nat; [| by rewrite <- app_assoc].
           replace (j - length acc) with (S (j - (length acc + 1))) by lia.
           cbn [take map]. by rewrite <- app_assoc.
        -- replace (length acc + 1 <=? j)%nat with false
             by (symmetry; apply Nat.leb_gt; lia).
           cbn [andb]. by rewrite <- app_assoc.
    + unfold bind at 1, get at 1. rewrite Hr. cbn [negb].
      change {| task_endpoint := ep; task_outcome := probe env k ep |}
        with (task_for env k ep).
      rewrite IH. cbn [map]. by rewrite <- app_assoc.
Qed.

Lemma build_tasks_runs (env : Env) (k : nat) (active_endpoints : list string) (w : World) :
  build_tasks env k
    (take (Nat.min 5 (length active_endpoints)) active_endpoints) [] w =
    (Ok (dispatched env k active_endpoints w), started env k active_endpoints w).
Proof.
  unfold dispatched, started, created, interrupted. cbv zeta.
  set (n := Nat.min 5 (length active_endpoints)).
  destruct (running (self w)) eqn:Hr.
  - rewrite (build_tasks_running env k _ [] w Hr). cbn [length app andb].
    assert (Hlen : length (take n active_endpoints) = n)
      by (rewrite length_take; subst n; lia).
    rewrite Hlen. destruct (dispatch_signal env k) as [j |]; cbn [Nat.leb andb Nat.add].
    + rewrite Nat.sub_0_r. destruct (Nat.ltb_spec j n) as [Hlt | Hge].
      * by rewrite Nat.min_l by lia.
      * rewrite Nat.min_r by lia. by rewrite (take_ge (take n active_endpoints)) by lia.
    + by rewrite (take_ge (take n active_endpoints)) by lia.
  - apply build_tasks_stopped, Hr.
Qed.

Lemma inter_round_wait_runs (env : Env) (w : World) :
  inter_round_wait env w = (Ok tt, slept env w).
Proof.
  unfold inter_round_wait, slept, bind, get.
  destruct (running (self w)); reflexivity.
Qed.

Lemma sampling_round_runs (env : Env) (k : nat) (active_endpoints : list string) (w : World) :
  sampling_round env k active_endpoints w = (Ok tt, after_round env k active_endpoints w).
Proof.
  unfold sampling_round, after_round. cbv zeta. unfold bind at 1.
  rewrite build_tasks_runs. unfold bind.
  rewrite settle_round_runs. apply inter_round_wait_runs.
Qed.

(** ** What a round leaves alone *)

Lemma steady_refl (w : World) : steady w w.
Proof. unfold steady. repeat split; try done. apply Qle_refl. Qed.

Lemma steady_trans (w1 w2 w3 : World) : steady w1 w2 -> steady w2 w3 -> steady w1 w3.
Proof.
  unfold steady.
  intros (A1 & A2 & A3 & A4 & A5 & A6 & A7 & A8 & A9 & A10)
         (B1 & B2 & B3 & B4 & B5 & B6 & B7 & B8 & B9 & B10).
  repeat split; try congruence; [auto | eapply Qle_trans; eassumption].
Qed.

Lemma Qmax_0_nonneg (d : Q) : (0 <= Qmax 0 d)%Q.
Proof. apply Q.le_max_l. Qed.

Lemma pass_time_clock (env : Env) (d : Q) (w : World) :
  clock (pass_time env d w) = (clock w + Qmax 0 d)%Q.
Proof. unfold pass_time. destruct (signal_due env _); reflexivity. Qed.

Lemma pass_time_running (env : Env) (d : Q) (w : World) :
  running (self (pass_time env d w)) =
    if signal_due env (clock w + Qmax 0 d) then false else running (self w).
Proof. unfold pass_time. destruct (signal_due env _); reflexivity. Qed.

Lemma pass_time_frame (env : Env) (d : Q) (w : World) :
  files (pass_time env d w) = files w /\ trace (pass_time env d w) = trace w.
Proof. unfold pass_time. destruct (signal_due env _); done. Qed.

Lemma pass_time_steady (env : Env) (d : Q) (w : World) : steady w (pass_time env d w).
Proof.
  unfold steady. rewrite pass_time_clock, pass_time_running.
  unfold pass_time. destruct (signal_due env _); simpl; repeat split; try done;
    pose proof (Qmax_0_nonneg d); lra.
Qed.

Lemma after_probes_steady (probes : list (string * NetOutcome)) (w : World) :
  steady w (after_probes probes w).
Proof.
  revert w. induction probes as [| [ep o] rest IH]; intros w; simpl.
  - apply steady_refl.
  - eapply steady_trans; [| apply IH].
    unfold steady; simpl. repeat split; try done. apply Qle_refl.
Qed.

Lemma keep_steady (rs : list ResponseRecord) (w : World) : steady w (keep rs w).
Proof. unfold steady; simpl. repeat split; try done. apply Qle_refl. Qed.

Lemma reports_generated_emit (e : Event) (w : World) :
  reports_generated (emit e w) =
    reports_generated w + match e with EvGenerateReports _ => 1 | _ => 0 end.
Proof.
  unfold reports_generated, emit; simpl. rewrite List.filter_app, length_app.
  destruct e; reflexivity.
Qed.

Lemma emit_steady (e : Event) (w : World) :
  match e with EvGenerateReports _ => False | _ => True end -> steady w (emit e w).
Proof.
  intros He. unfold steady. rewrite reports_generated_emit. simpl.
  repeat split; try done; [destruct e; [lia | lia | done] | apply Qle_refl].
Qed.

Lemma gathered_steady (env : Env) (tasks : list Task) (w : World) :
  steady w (gathered env tasks w).
Proof.
  unfold gathered.
  eapply steady_trans; [apply after_probes_steady |].
  eapply steady_trans; [apply pass_time_steady |].
  by apply emit_steady.
Qed.

Lemma settled_steady (env : Env) (tasks : list Task) (w : World) :
  steady w (settled env tasks w).
Proof.
  destruct tasks as [| t rest]; [apply steady_refl |].
  unfold settled. eapply steady_trans; [apply gathered_steady | apply keep_steady].
Qed.

Lemma slept_steady (env : Env) (w : World) : steady w (slept env w).
Proof.
  unfold slept. destruct (running (self w)); [| apply steady_refl].
  eapply steady_trans; [apply pass_time_steady | by apply emit_steady].
Qed.

Lemma signal_handler_steady (w : World) : steady w (signal_handler w).
Proof. unfold steady; simpl. repeat split; try done. apply Qle_refl. Qed.

Lemma started_steady (env : Env) (k : nat) (active : list string) (w : World) :
  steady w (started env k active w).
Proof.
  unfold started. destruct (_ && _)%bool; [apply signal_handler_steady | apply steady_refl].
Qed.

(** Making the tasks changes nothing but, on a signal, the flag. *)
Lemma started_frame (env : Env) (k : nat) (active : list string) (w : World) :
  let w1 := started env k active w in
  clock w1 = clock w /\ files w1 = files w /\ trace w1 = trace w /\
  stats (self w1) = stats (self w) /\ responses (self w1) = responses (self w) /\
  running (self w1) =
    (running (self w) && negb (interrupted env k (Nat.min 5 (length active))))%bool.
Proof.
  unfold started.
  destruct (running (self w)) eqn:Hr, (interrupted env k (Nat.min 5 (length active)));
    simpl; rewrite ?Hr; done.
Qed.

Lemma after_round_steady (env : Env) (k : nat) (active : list string) (w : World) :
  steady w (after_round env k active w).
Proof.
  unfold after_round.
  eapply steady_trans; [apply started_steady |].
  eapply steady_trans; [apply settled_steady | apply slept_steady].
Qed.

(** A round after which the flag is still set has slept the whole
    interval. *)
Lemma after_round_running (env : Env) (k : nat) (active : list string) (w : World) :
  running (self (after_round env k active w)) = true ->
  (clock w + inject_Z (sample_interval (self w)) <= clock (after_round env k active w))%Q.
Proof.
  unfold after_round.
  assert (Hs : steady w (settled env (dispatched env k active w) (started env k active w))).
  { eapply steady_trans; [apply started_steady | apply settled_steady]. }
  set (w2 := settled env (dispatched env k active w) (started env k active w)) in *.
  destruct Hs as (_ & Hi & _ & _ & _ & _ & _ & _ & _ & Hc).
  unfold slept. destruct (running (self w2)) eqn:E.
  - intros _. simpl. rewrite pass_time_clock, Hi.
    pose proof (Q.le_max_r 0 (inject_Z (sample_interval (self w)))). lra.
  - rewrite E. discriminate.
Qed.

(** ** The connectivity probe *)

Lemma probe_endpoints_runs (env : Env) (eps : list string) (acc : dict bool) (w : World) :
  probe_endpoints env eps acc w =
    (Ok (connectivity_of env eps acc), after_connectivity env eps w).
Proof.
  revert acc w. induction eps as [| ep eps IH]; intros acc w; simpl.
  - reflexivity.
  - destruct (connect env ep) as [d answered] eqn:E. unfold bind, await, modify.
    rewrite IH. simpl. reflexivity.
Qed.

Lemma after_connectivity_steady (env : Env) (eps : list string) (w : World) :
  steady w (after_connectivity env eps w).
Proof.
  revert w. induction eps as [| ep eps IH]; intros w; simpl.
  - apply steady_refl.
  - eapply steady_trans; [apply pass_time_steady | apply IH].
Qed.

Lemma after_connectivity_files (env : Env) (eps : list string) (w : World) :
  files (after_connectivity env eps w) = files w /\
  trace (after_connectivity env eps w) = trace w.
Proof.
  revert w. induction eps as [| ep eps IH]; intros w; simpl.
  - done.
  - destruct (IH (pass_time env (connect env ep).1 w)) as [-> ->].
    unfold pass_time. destruct (signal_due env _); done.
Qed.

Lemma dict_upd_elem {V} (k : string) (f : option V -> V) (d : dict V) (k' : string) (v' : V) :
  (k', v') ∈ dict_upd k f d -> (k', v') ∈ d \/ (k' = k /\ exists o, v' = f o).
Proof.
  induction d as [| [k0 v0] d IH]; simpl.
  - intros H. apply list_elem_of_singleton in H. injection H as -> ->. right. eauto.
  - destruct (String.eqb_spec k k0) as [-> | Hne]; intros H.
    + apply elem_of_cons in H as [H | H].
      * injection H as -> ->. right. eauto.
      * left. by right.
    + apply elem_of_cons in H as [H | H].
      * left. rewrite H. by left.
      * destruct (IH H) as [H' | H']; [left; by right | by right].
Qed.

Lemma dict_upd_key {V} (k : string) (f : option V -> V) (d : dict V) :
  exists v, (k, v) ∈ dict_upd k f d.
Proof.
  induction d as [| [k0 v0] d IH]; simpl.
  - eexists. by left.
  - destruct (String.eqb_spec k k0) as [-> | Hne].
    + eexists. by left.
    + destruct IH as [v Hv]. exists v. by right.
Qed.

Lemma dict_upd_keeps_key {V} (k : string) (f : option V -> V) (d : dict V) (k' : string) :
  (exists v, (k', v) ∈ d) -> exists v, (k', v) ∈ dict_upd k f d.
Proof.
  induction d as [| [k0 v0] d IH]; simpl; intros [v Hv].
  - by apply elem_of_nil in Hv.
  - destruct (String.eqb_spec k k0) as [-> | Hne].
    + apply elem_of_cons in Hv as [Hv | Hv].
      * injection Hv as -> ->. eexists. by left.
      * exists v. by right.
    + apply elem_of_cons in Hv as [Hv | Hv].
      * exists v. rewrite Hv. by left.
      * destruct IH as [v1 Hv1]; [eauto |]. exists v1. by right.
Qed.

Lemma connectivity_of_entries (env : Env) (eps : list string) (acc : dict bool)
    (k : string) (v : bool) :
  (k, v) ∈ connectivity_of env eps acc ->
  (k, v) ∈ acc \/ (k ∈ eps /\ v = snd (connect env k)).
Proof.
  revert acc. induction eps as [| ep eps IH]; intros acc; simpl.
  - by left.
  - intros H. destruct (IH _ H) as [H' | [H1 H2]].
    + apply dict_upd_elem in H' as [H' | (-> & _ & ->)]; [by left |].
      right. split; [by left | done].
    + right. split; [by right | done].
Qed.

Lemma connectivity_of_keeps (env : Env) (eps : list string) (acc : dict bool) (k : string) :
  (exists v, (k, v) ∈ acc) -> exists v, (k, v) ∈ connectivity_of env eps acc.
Proof.
  revert acc. induction eps as [| ep eps IH]; intros acc H; simpl.
  - exact H.
  - apply IH. by apply dict_upd_keeps_key.
Qed.

Lemma connectivity_of_keys (env : Env) (eps : list string) (acc : dict bool) (k : string) :
  k ∈ eps -> exists v, (k, v) ∈ connectivity_of env eps acc.
Proof.
  revert acc. induction eps as [| ep eps IH]; intros acc H; simpl.
  - by apply elem_of_nil in H.
  - apply elem_of_cons in H as [-> | H].
    + apply connectivity_of_keeps, dict_upd_key.
    + by apply IH.
Qed.

Lemma active_of_nil (d : dict bool) :
  active_of d = [] <-> forall k v, (k, v) ∈ d -> v = false.
Proof.
  unfold active_of. induction d as [| [k0 v0] d IH]; simpl.
  - split; [intros _ k v H; by apply elem_of_nil in H | done].
  - destruct v0; simpl.
    + split; [discriminate |]. intros H. specialize (H k0 true). 
      assert (true = false) by (apply H; by left). discriminate.
    + rewrite IH. split.
      * intros H k v Hkv. apply elem_of_cons in Hkv as [Hkv | Hkv]; [by injection Hkv | eauto].
      * intros H k v Hkv. apply (H k). by right.
Qed.

Lemma active_endpoints_nil (env : Env) (eps : list string) :
  active_of (connectivity_of env eps []) = [] <->
  existsb (fun ep => snd (connect env ep)) eps = false.
Proof.
  rewrite active_of_nil. split.
  - intros H. destruct (existsb _ eps) eqn:E; [| done].
    apply existsb_exists in E as (ep & Hin & Hep).
    apply list_elem_of_In in Hin.
    destruct (connectivity_of_keys env eps [] ep Hin) as [v Hv].
    pose proof (H ep v Hv) as ->.
    apply connectivity_of_entries in Hv as [Hv | [_ Hv]]; [by apply elem_of_nil in Hv |].
    congruence.
  - intros E k v Hkv.
    apply connectivity_of_entries in Hkv as [Hkv | [Hin ->]]; [by apply elem_of_nil in Hkv |].
    destruct (snd (connect env k)) eqn:Ek; [| done].
    assert (existsb (fun ep => snd (connect env ep)) eps = true); [| congruence].
    apply existsb_exists. exists k. split; [by apply list_elem_of_In | done].
Qed.

Lemma exists_fuel (x : Q) : exists n : nat, (x < inject_Z (Z.of_nat n))%Q.
Proof.
  exists (Z.to_nat (Z.max 0 (Qfloor x + 1))).
  rewrite Z2Nat.id by lia.
  eapply Qlt_le_trans; [apply Qlt_floor |].
  rewrite <- Zle_Qle. lia.
Qed.

Lemma gathered_frame (env : Env) (tasks : list Task) (w : World) :
  files (gathered env tasks w) = files w /\
  responses (self (gathered env tasks w)) = responses (self w) /\
  clock (gathered env tasks w) = (clock w + Qmax 0 (longest tasks))%Q /\
  running (self (gathered env tasks w)) =
    (if signal_due env (clock w + Qmax 0 (longest tasks)) then false else running (self w)) /\
  trace (gathered env tasks w) =
    trace w ++ [EvGather (clock w) (length tasks) (clock w + Qmax 0 (longest tasks))].
Proof.
  unfold gathered.
  destruct (after_probes_frame (task_probes tasks) w) as (Hf & Hc & Ht & Hr & Hrun).
  cbv zeta in *. simpl.
  rewrite pass_time_clock, pass_time_running, Hc, Hrun.
  unfold pass_time. rewrite Hc.
  destruct (signal_due env _); simpl; rewrite Hf, Hr, Ht; done.
Qed.

(** C2.  Settling a round returns, whatever the outcomes of its requests
    (responses, timeouts and connection errors alike), and the log has then
    grown by exactly one record per dispatched task: the records of the
    tasks, in dispatch order.  The same records are appended to
    [self.responses]. *)
Theorem round_logs_every_dispatched_request (env : Env) (tasks : list Task) (w : World) :
  exists w',
    settle_round env tasks w = (Ok tt, w') /\
    openapi_responses_jsonl (files w') =
      openapi_responses_jsonl (files w) ++ map (task_record (clock w)) tasks /\
    length (openapi_responses_jsonl (files w')) =
      length (openapi_responses_jsonl (files w)) + length tasks /\
    responses (self w') = responses (self w) ++ map (task_record (clock w)) tasks.
Proof.
  eexists. split; [apply settle_round_runs |].
  assert (Hlog : openapi_responses_jsonl (files (settled env tasks w)) =
                 openapi_responses_jsonl (files w) ++ map (task_record (clock w)) tasks).
  { destruct tasks as [| t rest]; [simpl; by rewrite app_nil_r |].
    unfold settled, keep. cbn [files openapi_responses_jsonl].
    destruct (gathered_frame env (t :: rest) w) as (-> & _). done. }
  split; [exact Hlog |]. split.
  - rewrite Hlog, length_app, length_map. done.
  - destruct tasks as [| t rest]; [simpl; by rewrite app_nil_r |].
    unfold settled, keep. cbn [self responses].
    destruct (gathered_frame env (t :: rest) w) as (_ & -> & _). done.
Qed.

(** C1 as stated fails: when no endpoint answers the connectivity probe,
    [monitor_responses] returns without a call of [generate_reports], and
    none of the three report files exists. *)
Lemma no_report_when_nothing_reachable :
  let r := monitor_responses 10 env_all_down (new_world 60 2 1000) in
  fst r = Ok tt /\
  reports_generated (snd r) = 0 /\
  reports_generated (snd r) <> 1 /\
  response_summary_json (files (snd r)) = None /\
  status_code_distribution_csv (files (snd r)) = None /\
  endpoint_performance_json (files (snd r)) = None.
Proof.
  vm_compute. repeat split. discriminate.
Qed.

(** C9 as stated fails: a signal that arrives during the sleep between two
    rounds does not end the sleep.  Here the round settles at 1001.7 s, the
    signal arrives at 1003 s and the sleep of 2 s ends at 1003.7 s. *)
Lemma sleep_outlasts_the_signal :
  let r := monitor_responses 10 env_signal_at_1003 (new_world 60 2 1000) in
  fst r = Ok tt /\
  signal_at env_signal_at_1003 = Some 1003%Q /\
  exists t0 t1 t2,
    trace (snd r) = [EvGather t0 5 t1; EvSleep t1 t2; EvGenerateReports t2] /\
    (t1 < 1003)%Q /\ (1003 < t2)%Q /\
    (t2 == t1 + 2)%Q /\ ~ (t2 < t1 + 2)%Q /\
    length (openapi_responses_jsonl (files (snd r))) = 5 /\
    running (self (snd r)) = false.
Proof.
  cbv zeta. split; [vm_compute; reflexivity |]. split; [reflexivity |].
  eexists _, _, _. split; [vm_compute; reflexivity |].
  repeat split; try (vm_compute; reflexivity).
  vm_compute. intros H. discriminate H.
Qed.

Lemma settled_nonempty (env : Env) (tasks : list Task) (w : World) :
  0 < length tasks ->
  settled env tasks w = keep (map (task_record (clock w)) tasks) (gathered env tasks w).
Proof. destruct tasks; simpl; [lia | reflexivity]. Qed.

Lemma created_le (env : Env) (k n : nat) : created env k n <= n.
Proof. unfold created. destruct (dispatch_signal env k); lia. Qed.

(** A round that no signal interrupts while it creates its tasks creates
    all of them. *)
Lemma created_whole (env : Env) (k n : nat) :
  interrupted env k n = false -> created env k n = n.
Proof.
  unfold created, interrupted. destruct (dispatch_signal env k) as [j |]; [| done].
  intros H. apply Nat.ltb_ge in H. lia.
Qed.

(** C9, amended.  The flag is read at the loop test, before each request of
    a round is created, and once the round has settled.  A round that starts
    with the flag set creates a request per sampled endpoint, unless a signal
    arrives while the requests are created: after [j] of them, the check
    before the next one ends the creation with those [j].  The requests that
    were created are all dispatched, run until they have settled, whenever a
    signal arrives, and are all logged.  After a signal during the creation,
    or by the time [t1] the requests have settled, there is no sleep.
    Otherwise the sleep lasts the whole sampling interval, also when a signal
    arrives during it: the round ends at [t2 = t1 + max(0, sample_interval)]
    and the signal has only cleared the flag, which the loop reads next. *)
Theorem round_completes_and_sleep_is_whole
    (env : Env) (k : nat) (active_endpoints : list string) (w : World) :
  running (self w) = true ->
  active_endpoints <> [] ->
  let n := Nat.min 5 (length active_endpoints) in
  let sample_endpoints := take n active_endpoints in
  let tasks := map (task_for env k) (take (created env k n) sample_endpoints) in
  let t1 := (clock w + Qmax 0 (longest tasks))%Q in
  let t2 := (t1 + Qmax 0 (inject_Z (sample_interval (self w))))%Q in
  exists w',
    sampling_round env k active_endpoints w = (Ok tt, w') /\
    length tasks =
      match dispatch_signal env k with
      | Some j => Nat.min j n
      | None => n
      end /\
    openapi_responses_jsonl (files w') =
      openapi_responses_jsonl (files w) ++ map (task_record (clock w)) tasks /\
    if interrupted env k n
    then running (self w') = false /\
         match tasks with
         | [] => clock w' = clock w /\ trace w' = trace w
         | _ :: _ =>
             clock w' = t1 /\
             trace w' = trace w ++ [EvGather (clock w) (length tasks) t1]
         end
    else length tasks = n /\
         if signal_due env t1
         then running (self w') = false /\ clock w' = t1 /\
              trace w' = trace w ++ [EvGather (clock w) (length tasks) t1]
         else running (self w') = negb (signal_due env t2) /\ clock w' = t2 /\
              trace w' =
                trace w ++ [EvGather (clock w) (length tasks) t1; EvSleep t1 t2].
Proof.
  intros Hr Hne n sample_endpoints tasks t1 t2.
  eexists. split; [apply sampling_round_runs |].
  assert (Hn : 0 < n).
  { subst n. destruct active_endpoints; [done | simpl; lia]. }
  assert (Hlen : length tasks = created env k n).
  { subst tasks sample_endpoints. rewrite length_map, !length_take.
    pose proof (created_le env k n). lia. }
  split; [exact Hlen |].
  unfold after_round, dispatched. rewrite Hr. cbv zeta.
  fold n. fold sample_endpoints. fold tasks.
  destruct (started_frame env k active_endpoints w) as (Hc1 & Hf1 & Htr1 & _ & _ & Hr1).
  pose proof (started_steady env k active_endpoints w) as (_ & Hi1 & _).
  cbv zeta in Hc1, Hf1, Htr1, Hr1. fold n in Hr1. rewrite Hr in Hr1. cbn [andb] in Hr1.
  set (w1 := started env k active_endpoints w) in *.
  assert (Hsettled : forall t rest, tasks = t :: rest ->
            let w2 := settled env tasks w1 in
            openapi_responses_jsonl (files w2) =
              openapi_responses_jsonl (files w) ++ map (task_record (clock w)) tasks /\
            clock w2 = t1 /\
            running (self w2) = (if signal_due env t1 then false else running (self w1)) /\
            sample_interval (self w2) = sample_interval (self w) /\
            trace w2 = trace w ++ [EvGather (clock w) (length tasks) t1]).
  { intros t rest Et w2. subst w2.
    rewrite settled_nonempty by (rewrite Et; simpl; lia).
    destruct (gathered_frame env tasks w1) as (Hf & _ & Hc & Hrun & Htr).
    pose proof (gathered_steady env tasks w1) as (_ & Hi & _).
    rewrite Hc1 in *. fold t1 in Hc, Hrun, Htr.
    cbn [keep files openapi_responses_jsonl clock self running sample_interval trace].
    rewrite Hf, Hf1, Hc, Hrun, Hi, Hi1, Htr, Htr1. done. }
  clearbody tasks.
  destruct (interrupted env k n) eqn:Hint; cbn [negb] in Hr1.
  - destruct tasks as [| t rest].
    + cbn [settled map]. unfold slept. rewrite Hr1, Hf1, Hc1, Htr1, app_nil_r. done.
    + destruct (Hsettled t rest eq_refl) as (Hlog & Hc2 & Hrun2 & _ & Htr2).
      rewrite Hr1 in Hrun2.
      assert (Hoff : running (self (settled env (t :: rest) w1)) = false)
        by (rewrite Hrun2; by destruct (signal_due env t1)).
      unfold slept. rewrite Hoff. done.
  - rewrite created_whole in Hlen by exact Hint.
    destruct tasks as [| t rest]; [simpl in Hlen; lia |].
    destruct (Hsettled t rest eq_refl) as (Hlog & Hc2 & Hrun2 & Hi2 & Htr2).
    rewrite Hr1 in Hrun2.
    set (w2 := settled env (t :: rest) w1) in *. clearbody w2.
    unfold slept. rewrite Hrun2. destruct (signal_due env t1) eqn:Hdue.
    + rewrite Hrun2. done.
    + destruct (pass_time_frame env (inject_Z (sample_interval (self w2))) w2) as [Hf3 Ht3].
      cbn [emit files self clock trace].
      rewrite pass_time_clock, pass_time_running, Hf3, Ht3, Hc2, Hi2, Hrun2, Htr2.
      fold t2. split; [exact Hlog |]. split; [exact Hlen |].
      split; [by destruct (signal_due env t2) |].
      split; [reflexivity |]. by rewrite <- app_assoc.
Qed.

(** C9, amended, at a first round during which a signal arrives when two of
    its five requests have been created: these two are dispatched, settle
    after half a second and are logged, and the round ends there. *)
Lemma round_completes_and_sleep_is_whole_witness :
  let env := env_signal_in_dispatch in
  let w := new_world 60 2 1000 in
  let active_endpoints := endpoints (self w) in
  running (self w) = true /\
  active_endpoints <> [] /\
  let n := Nat.min 5 (length active_endpoints) in
  let sample_endpoints := take n active_endpoints in
  let tasks := map (task_for env 0) (take (created env 0 n) sample_endpoints) in
  let t1 := (clock w + Qmax 0 (longest tasks))%Q in
  let t2 := (t1 + Qmax 0 (inject_Z (sample_interval (self w))))%Q in
  n = 5 /\ length tasks = 2 /\ interrupted env 0 n = true /\
  exists w',
    sampling_round env 0 active_endpoints w = (Ok tt, w') /\
    length tasks =
      match dispatch_signal env 0 with
      | Some j => Nat.min j n
      | None => n
      end /\
    openapi_responses_jsonl (files w') =
      openapi_responses_jsonl (files w) ++ map (task_record (clock w)) tasks /\
    if interrupted env 0 n
    then running (self w') = false /\
         match tasks with
         | [] => clock w' = clock w /\ trace w' = trace w
         | _ :: _ =>
             clock w' = t1 /\
             trace w' = trace w ++ [EvGather (clock w) (length tasks) t1]
         end
    else length tasks = n /\
         if signal_due env t1
         then running (self w') = false /\ clock w' = t1 /\
              trace w' = trace w ++ [EvGather (clock w) (length tasks) t1]
         else running (self w') = negb (signal_due env t2) /\ clock w' = t2 /\
              trace w' =
                trace w ++ [EvGather (clock w) (length tasks) t1; EvSleep t1 t2].
Proof.
  cbv zeta. split; [reflexivity |]. split; [discriminate |].
  split; [reflexivity |]. split; [reflexivity |]. split; [reflexivity |].
  apply (round_completes_and_sleep_is_whole env_signal_in_dispatch 0
           (endpoints (self (new_world 60 2 1000))) (new_world 60 2 1000)).
  - reflexivity.
  - discriminate.
Defined.

(** ** Binary64 reading of the percentile indices *)

(** For every list of up to 4096 response times, the indices computed with
    rationals are the indices Python computes with floats. *)
Lemma float_index_agrees_upto_4096 :
  forallb float_index_agrees (seq 0 4097) = true.
Proof. vm_compute. reflexivity. Qed.

(** * Further properties of the monitor *)

(** ** What the statistics count *)

Lemma hist_incr_lookup (k c : Z) (h : histogram) :
  hist_incr k h !! c = if decide (c = k) then Some (S (default 0 (h !! k))) else h !! c.
Proof.
  unfold hist_incr. destruct (decide (c = k)) as [-> | Hne].
  - apply lookup_insert_eq.
  - by apply lookup_insert_ne.
Qed.

Lemma after_probes_app (l1 l2 : list (string * NetOutcome)) (w : World) :
  after_probes (l1 ++ l2) w = after_probes l2 (after_probes l1 w).
Proof.
  revert w. induction l1 as [| [ep o] l1 IH]; intros w; simpl; [reflexivity | apply IH].
Qed.

(** The statistics after a sequence of probes on a fresh monitor count the
    outcomes: the histogram has an entry for a status code exactly when a
    response with that status was received, and the entry is the number of
    such responses; [successful_requests] is the number of responses with a
    status in [200, 400); the error list holds the descriptions of the
    timeouts and connection errors in order; there is one latency per
    response received. *)
Theorem statistics_count_the_outcomes
    (probes : list (string * NetOutcome)) (d i : Z) (t0 : Q) :
  exists w',
    run_probes probes (new_world d i t0) = (Ok tt, w') /\
    let st := stats (self w') in
    (forall c : Z,
       status_codes st !! c =
         match length (List.filter (responded_with c) probes) with
         | O => None
         | S n => Some (S n)
         end) /\
    total_requests st = length probes /\
    successful_requests st = length (List.filter succeeded probes) /\
    failed_requests st = length probes - length (List.filter succeeded probes) /\
    errors st = omap error_of probes /\
    length (response_times st) = length (List.filter responded probes).
Proof.
  eexists. split; [apply run_probes_runs |]. cbv zeta.
  induction probes as [| [ep o] probes IH] using rev_ind.
  - simpl. repeat split.
  - rewrite after_probes_app. cbn [after_probes with_self self with_stats stats].
    destruct IH as (Hh & Ht & Hs & Hf & He & Hl).
    pose proof (List.filter_length_le succeeded probes) as Hle.
    rewrite !List.filter_app, !length_app, omap_app. 
    destruct o as [el r | el | el msg]; cbn [probe_effect count_response count_failure
      status_codes total_requests successful_requests failed_requests errors response_times
      List.filter responded_with succeeded responded error_of snd omap length].
    + split.
      { intros c. rewrite hist_incr_lookup, !Hh, List.filter_app, length_app.
        cbn [List.filter responded_with snd].
        destruct (decide (c = resp_status r)) as [-> | Hne].
        - rewrite Z.eqb_refl. cbn [length]. rewrite Nat.add_1_r.
          destruct (length (List.filter (responded_with (resp_status r)) probes));
            reflexivity.
        - replace (resp_status r =? c)%Z with false
            by (symmetry; apply Z.eqb_neq; congruence).
          cbn [length]. by rewrite Nat.add_0_r. }
      rewrite length_app, Ht, Hs, Hf, He, Hl. cbn [length].
      destruct ((200 <=? resp_status r)%Z && (resp_status r <? 400)%Z)%bool;
        cbn [length]; rewrite ?app_nil_r; repeat split; lia.
    + split.
      { intros c. rewrite Hh, List.filter_app, length_app.
        cbn [List.filter responded_with snd length]. by rewrite Nat.add_0_r. }
      rewrite Ht, Hs, Hf, He, Hl. cbn [length]. repeat split; lia.
    + split.
      { intros c. rewrite Hh, List.filter_app, length_app.
        cbn [List.filter responded_with snd length]. by rewrite Nat.add_0_r. }
      rewrite Ht, Hs, Hf, He, Hl. cbn [length]. repeat split; lia.
Qed.

(** ** More on the reports *)

(** The order of the CSV rows is total and transitive. *)
#[global] Instance item_le_total : Total item_le.
Proof. intros a b. unfold item_le. lia. Qed.

#[global] Instance item_le_transitive : Transitive item_le.
Proof. intros a b c. unfold item_le. lia. Qed.

Lemma mapM_Forall2 {A B} (f : A -> result B) (l : list A) (ys : list B) :
  mapM f l = Ok ys -> Forall2 (fun x y => f x = Ok y) l ys.
Proof.
  revert ys. induction l as [| x l IH]; intros ys; simpl.
  - intros [= <-]. constructor.
  - destruct (f x) as [y | e |] eqn:Hy; simpl; try discriminate.
    destruct (mapM f l) as [ys' | e |]; simpl; try discriminate.
    intros [= <-]. constructor; [exact Hy | by apply IH].
Qed.

Lemma sorted_items_keys_ascending (h : histogram) :
  StronglySorted Z.lt (map fst (sorted_items h)).
Proof.
  assert (Hs : StronglySorted item_le (sorted_items h))
    by (apply StronglySorted_merge_sort; apply _).
  assert (Hn : NoDup (map fst (sorted_items h))).
  { unfold sorted_items. rewrite merge_sort_Permutation. apply NoDup_fst_map_to_list. }
  induction Hs as [| a l Hs IH Hall]; simpl; [constructor |].
  apply NoDup_cons in Hn as [Hnot Hn].
  constructor; [by apply IH |].
  apply Forall_forall. intros k Hk.
  apply list_elem_of_fmap in Hk as (b & -> & Hb).
  rewrite Forall_forall in Hall. specialize (Hall b Hb). unfold item_le in Hall.
  destruct (decide (a.1 = b.1)) as [Heq | Hne]; [| lia].
  exfalso. apply Hnot. rewrite Heq. apply list_elem_of_fmap. eauto.
Qed.

Lemma sorted_items_elem (h : histogram) (k : Z) (c : nat) :
  (k, c) ∈ sorted_items h <-> h !! k = Some c.
Proof.
  unfold sorted_items. rewrite merge_sort_Permutation. apply elem_of_map_to_list.
Qed.

Lemma csv_rows_items (h : histogram) (rows : list CsvRow) :
  csv_rows h = Ok rows ->
  map (fun row => (row_status_code row, row_count row)) rows = sorted_items h /\
  Forall (fun row =>
            row_percentage row =
              if (0 <? hist_total h)%nat
              then (Q_of_nat (row_count row) / Q_of_nat (hist_total h) * 100)%Q
              else 0%Q) rows.
Proof.
  unfold csv_rows. intros H. apply mapM_Forall2 in H.
  induction H as [| [k c] row items rows Hrow _ IH]; simpl; [done |].
  destruct IH as [IH1 IH2].
  assert (Hr : row_status_code row = k /\ row_count row = c /\
               row_percentage row =
                 if (0 <? hist_total h)%nat
                 then (Q_of_nat c / Q_of_nat (hist_total h) * 100)%Q else 0%Q).
  { destruct (0 <? hist_total h)%nat eqn:E.
    - apply Nat.ltb_lt in E.
      rewrite (truediv_ok _ _ (Q_of_nat_nonzero _ E)) in Hrow. simpl in Hrow.
      injection Hrow as <-. done.
    - simpl in Hrow. injection Hrow as <-. done. }
  destruct Hr as (Hk & Hc & Hp). split.
  - by rewrite Hk, Hc, IH1.
  - constructor; [by rewrite Hc | exact IH2].
Qed.

(** The status-code table: [csv_rows] returns; the rows are in strictly
    ascending order of status code; there is exactly one row per status code
    of the histogram, with its count. *)
Theorem csv_rows_sorted_and_complete (h : histogram) :
  exists rows,
    csv_rows h = Ok rows /\
    StronglySorted Z.lt (map row_status_code rows) /\
    length rows = size h /\
    forall (code : Z) (count : nat),
      (exists row, row ∈ rows /\ row_status_code row = code /\ row_count row = count)
      <-> h !! code = Some count.
Proof.
  destruct (csv_rows_ok h) as [rows Hrows]. exists rows. split; [exact Hrows |].
  destruct (csv_rows_items h rows Hrows) as [Hitems _].
  assert (Hkeys : map row_status_code rows = map fst (sorted_items h)).
  { rewrite <- Hitems, map_map. reflexivity. }
  split; [rewrite Hkeys; apply sorted_items_keys_ascending |].
  split.
  { rewrite <- (length_map (fun row => (row_status_code row, row_count row))), Hitems.
    unfold sorted_items. rewrite merge_sort_Permutation. apply length_map_to_list. }
  intros code count. rewrite <- sorted_items_elem, <- Hitems. split.
  - intros (row & Hin & <- & <-). apply list_elem_of_fmap. eauto.
  - intros Hin. apply list_elem_of_fmap in Hin as (row & [= -> ->] & Hin). eauto.
Qed.

Lemma sorted_lookup_le (l : list Q) (i j : nat) (x y : Q) :
  StronglySorted Qle l -> i <= j -> l !! i = Some x -> l !! j = Some y -> (x <= y)%Q.
Proof.
  intros Hs. revert i j. induction Hs as [| a l Hs IH Hall]; intros i j Hij Hx Hy.
  - by rewrite lookup_nil in Hx.
  - destruct i as [| i], j as [| j]; simpl in *.
    + injection Hx as <-. injection Hy as <-. apply Qle_refl.
    + injection Hx as <-. rewrite Forall_forall in Hall.
      apply Hall. by apply list_elem_of_lookup_2 in Hy.
    + lia.
    + apply (IH i j); [lia | done | done].
Qed.

Lemma median_index_le (n : nat) : n / 2 <= n * 95 / 100.
Proof.
  rewrite <- (Nat.Div0.div_mul_cancel_r n 2 50) by lia.
  change (2 * 50) with 100. apply Nat.Div0.div_le_mono. lia.
Qed.

(** The latency summary is ordered: min <= median <= p95 <= p99 <= max. *)
Theorem latency_statistics_ordered (response_times : list Q) :
  response_times <> [] ->
  exists ls,
    compute_latency_stats response_times = Ok (Some ls) /\
    (min_ms ls <= median_ms ls)%Q /\
    (median_ms ls <= p95_ms ls)%Q /\
    (p95_ms ls <= p99_ms ls)%Q /\
    (p99_ms ls <= max_ms ls)%Q.
Proof.
  intros Hne.
  destruct (latency_stats_spec response_times Hne)
    as (ls & lo & hi & Hrun & Hlo & Hmin & Hhi & Hmax & Hmean & H2 & Hmed & H95 & Hp95 &
        H99 & Hp99).
  set (times := sorted response_times) in *.
  set (n := length response_times) in *.
  assert (Hs : StronglySorted Qle times) by (apply StronglySorted_merge_sort; apply _).
  assert (Hlen : length times = n) by apply sorted_length.
  exists ls. split; [exact Hrun |]. rewrite Hmin, Hmax.
  assert (Hn : 0 < n) by lia.
  split; [apply (sorted_lookup_le times 0 (n / 2)); [done | lia | done | done] |].
  split; [apply (sorted_lookup_le times (n / 2) (n * 95 / 100));
          [done | apply median_index_le | done | done] |].
  split; [apply (sorted_lookup_le times (n * 95 / 100) (n * 99 / 100));
          [done | apply Nat.Div0.div_le_mono; lia | done | done] |].
  apply (sorted_lookup_le times (n * 99 / 100) (n - 1)); [done | lia | done | done].
Qed.

(** The order of the summary at the response times 30, 10, 20, 20. *)
Lemma latency_statistics_ordered_witness :
  [30; 10; 20; 20]%Q <> [] /\
  exists ls,
    compute_latency_stats [30; 10; 20; 20]%Q = Ok (Some ls) /\
    (min_ms ls <= median_ms ls)%Q /\
    (median_ms ls <= p95_ms ls)%Q /\
    (p95_ms ls <= p99_ms ls)%Q /\
    (p99_ms ls <= max_ms ls)%Q.
Proof.
  split; [discriminate |].
  apply (latency_statistics_ordered [30; 10; 20; 20]%Q). discriminate.
Defined.

Lemma size_list_to_set_le (l : list string) :
  size (list_to_set l : gset string) <= length l.
Proof.
  induction l as [| e l IH].
  - rewrite list_to_set_nil, size_empty. simpl. lia.
  - rewrite list_to_set_cons, size_union_alt, size_singleton. simpl.
    assert (Hd : size ((list_to_set l : gset string) ∖ {[e]})
                 <= size (list_to_set l : gset string))
      by (apply subseteq_size, subseteq_difference_l; reflexivity).
    lia.
Qed.

(** The error summary: [unique_errors] is the length of [common_errors] and
    never exceeds [total_errors]; [common_errors] has no duplicates and holds
    exactly the error descriptions that occur in [self.stats['errors']]. *)
Theorem error_summary_distinct (m : Monitor) (ls : option LatencyStats) (t : Q) :
  start_time m = Some t ->
  exists s,
    build_summary m ls = Ok s /\
    total_errors s = length (errors (stats m)) /\
    unique_errors s = length (common_errors s) /\
    unique_errors s <= total_errors s /\
    NoDup (common_errors s) /\
    forall e : string, e ∈ common_errors s <-> e ∈ errors (stats m).
Proof.
  intros Ht. unfold build_summary. rewrite Ht. simpl rbind.
  rewrite truediv_ok by (apply Q_of_nat_nonzero; lia). simpl.
  eexists. split; [reflexivity |]. simpl.
  split; [reflexivity |]. split; [reflexivity |].
  split.
  - apply size_list_to_set_le.
  - split; [apply NoDup_elements |].
    intros e. rewrite elem_of_elements, elem_of_list_to_set. done.
Qed.

(** The error summary of a monitor in mid-session: three errors, two of
    them the same. *)
Lemma error_summary_distinct_witness :
  start_time sampled_monitor = Some 1000%Q /\
  errors (stats sampled_monitor) = ["timeout"; "Connection refused"; "timeout"] /\
  exists s,
    build_summary sampled_monitor None = Ok s /\
    total_errors s = length (errors (stats sampled_monitor)) /\
    unique_errors s = length (common_errors s) /\
    unique_errors s <= total_errors s /\
    NoDup (common_errors s) /\
    forall e : string, e ∈ common_errors s <-> e ∈ errors (stats sampled_monitor).
Proof.
  split; [reflexivity |]. split; [reflexivity |].
  apply (error_summary_distinct sampled_monitor None 1000).
  reflexivity.
Defined.

(** The success rate is a percentage: when the counters add up, it lies
    between 0 and 100, and it is 100 exactly when requests were made and none
    failed. *)
Theorem success_rate_is_a_percentage (m : Monitor) (ls : option LatencyStats) (t : Q) :
  start_time m = Some t ->
  counters_add_up (stats m) ->
  exists s,
    build_summary m ls = Ok s /\
    (0 <= success_rate_percent s)%Q /\
    (success_rate_percent s <= 100)%Q /\
    ((success_rate_percent s == 100)%Q <->
     0 < total_requests (stats m) /\ failed_requests (stats m) = 0).
Proof.
  intros Ht Hc. unfold counters_add_up in Hc.
  destruct (build_summary_ok m ls t Ht) as (s & Hs & _ & Hrate).
  exists s. split; [exact Hs |]. rewrite Hrate.
  set (a := successful_requests (stats m)) in *.
  set (b := Nat.max 1 (total_requests (stats m))) in *.
  assert (Hb : (0 < Q_of_nat b)%Q).
  { unfold Q_of_nat. change 0%Q with (inject_Z 0). rewrite <- Zlt_Qlt. lia. }
  assert (Ha : (0 <= Q_of_nat a)%Q).
  { unfold Q_of_nat. change 0%Q with (inject_Z 0). rewrite <- Zle_Qle. lia. }
  assert (Hab : (Q_of_nat a <= Q_of_nat b)%Q).
  { unfold Q_of_nat. rewrite <- Zle_Qle. lia. }
  assert (Hq : (Q_of_nat a / Q_of_nat b * 100 == 100 * Q_of_nat a / Q_of_nat b)%Q).
  { field. lra. }
  rewrite Hq. split; [apply Qle_shift_div_l; [exact Hb | lra] |].
  split; [apply Qle_shift_div_r; [exact Hb | lra] |].
  split.
  - intros Heq.
    assert (Heq' : (Q_of_nat a == Q_of_nat b)%Q).
    { assert (H1 : (100 * Q_of_nat a / Q_of_nat b * Q_of_nat b == 100 * Q_of_nat a)%Q)
        by (field; lra).
      rewrite Heq in H1. lra. }
    unfold Q_of_nat, Qeq, inject_Z in Heq'. cbn [Qnum Qden] in Heq'. subst a b. lia.
  - intros [Hpos Hf].
    assert (Heq' : a = b) by (subst a b; lia). rewrite Heq'. field. lra.
Qed.

(** The success rate of a monitor in mid-session: two of five requests
    succeeded. *)
Lemma success_rate_is_a_percentage_witness :
  start_time sampled_monitor = Some 1000%Q /\
  counters_add_up (stats sampled_monitor) /\
  total_requests (stats sampled_monitor) = 5 /\
  successful_requests (stats sampled_monitor) = 2 /\
  exists s,
    build_summary sampled_monitor None = Ok s /\
    (0 <= success_rate_percent s)%Q /\
    (success_rate_percent s <= 100)%Q /\
    ((success_rate_percent s == 100)%Q <->
     0 < total_requests (stats sampled_monitor) /\
     failed_requests (stats sampled_monitor) = 0).
Proof.
  split; [reflexivity |]. split; [reflexivity |].
  split; [reflexivity |]. split; [reflexivity |].
  apply (success_rate_is_a_percentage sampled_monitor None 1000); reflexivity.
Defined.

(** ** The endpoint performance report *)

Lemma dict_get_upd {V} (k k' : string) (f : option V -> V) (d : dict V) :
  dict_get (dict_upd k f d) k' =
    if String.eqb k' k then Some (f (dict_get d k)) else dict_get d k'.
Proof.
  induction d as [| [k0 v0] d IH]; simpl.
  - destruct (String.eqb_spec k' k); reflexivity.
  - destruct (String.eqb_spec k k0) as [-> | Hne]; simpl.
    + destruct (String.eqb_spec k' k0); reflexivity.
    + destruct (String.eqb_spec k' k0) as [-> | Hne'].
      * destruct (String.eqb_spec k0 k); [congruence | reflexivity].
      * exact IH.
Qed.

Lemma records_of_snoc (ep : string) (rs : list ResponseRecord) (r : ResponseRecord) :
  records_of ep (rs ++ [r]) =
    if String.eqb ep (endpoint r) then records_of ep rs ++ [r] else records_of ep rs.
Proof.
  unfold records_of. rewrite List.filter_app. simpl.
  destruct (String.eqb ep (endpoint r)); [reflexivity | apply app_nil_r].
Qed.

Lemma tallied_snoc (ep : string) (rs : list ResponseRecord) (r : ResponseRecord) :
  tallied ep (rs ++ [r]) =
    if String.eqb ep (endpoint r)
    then let s := default fresh_endpoint_stats (tallied ep rs) in
         Some {| ep_count := S (ep_count s);
                 avg_latency := (avg_latency s + latency_ms r)%Q;
                 ep_status_codes := hist_incr (status_code r) (ep_status_codes s) |}
    else tallied ep rs.
Proof.
  unfold tallied. rewrite records_of_snoc.
  destruct (String.eqb ep (endpoint r)); [| reflexivity].
  generalize (records_of ep rs). intros l. destruct l as [| r0 l]; [reflexivity |].
  change ((r0 :: l) ++ [r]) with (r0 :: (l ++ [r])).
  cbv zeta. cbn [default]. f_equal.
  change (r0 :: (l ++ [r])) with ((r0 :: l) ++ [r]).
  unfold latency_total, status_histogram. rewrite !foldl_app, length_app.
  cbn [foldl length ep_count avg_latency ep_status_codes id].
  f_equal. lia.
Qed.

Lemma tally_get (rs : list ResponseRecord) (ep : string) :
  dict_get (foldl tally_response [] rs) ep = tallied ep rs.
Proof.
  revert ep. induction rs as [| r rs IH] using rev_ind; intros ep; [reflexivity |].
  rewrite foldl_app. simpl. unfold tally_response at 1.
  rewrite dict_get_upd, tallied_snoc.
  destruct (String.eqb_spec ep (endpoint r)) as [-> | Hne]; [| apply IH].
  rewrite IH. reflexivity.
Qed.

Lemma averaged_get (d rep : dict EndpointStats) (ep : string) :
  Forall2 (fun x y => average_endpoint x = Ok y) d rep ->
  dict_get rep ep =
    match dict_get d ep with
    | None => None
    | Some s =>
        Some (if (0 <? ep_count s)%nat
              then {| ep_count := ep_count s;
                      avg_latency := (avg_latency s / Q_of_nat (ep_count s))%Q;
                      ep_status_codes := ep_status_codes s |}
              else s)
    end.
Proof.
  intros H. induction H as [| [k s] [k' s'] d rep Hxy _ IH]; simpl; [reflexivity |].
  assert (Hk : k' = k /\
               s' = if (0 <? ep_count s)%nat
                    then {| ep_count := ep_count s;
                            avg_latency := (avg_latency s / Q_of_nat (ep_count s))%Q;
                            ep_status_codes := ep_status_codes s |}
                    else s).
  { unfold average_endpoint in Hxy. destruct (0 <? ep_count s)%nat eqn:E.
    - apply Nat.ltb_lt in E.
      rewrite (truediv_ok _ _ (Q_of_nat_nonzero _ E)) in Hxy. simpl in Hxy.
      by injection Hxy as <- <-.
    - by injection Hxy as <- <-. }
  destruct Hk as [-> ->].
  destruct (String.eqb ep k); [reflexivity | exact IH].
Qed.

(** The endpoint performance report is always produced.  An endpoint has an
    entry exactly when [self.responses] holds a record of it; the entry's
    count is the number of those records, its average latency is the sum of
    their latencies over that number, and its status codes are theirs. *)
Theorem endpoint_report_counts_and_means (rs : list ResponseRecord) :
  exists rep,
    endpoint_report rs = Ok rep /\
    forall ep : string,
      match dict_get rep ep with
      | None => records_of ep rs = []
      | Some s =>
          records_of ep rs <> [] /\
          ep_count s = length (records_of ep rs) /\
          avg_latency s =
            (latency_total (records_of ep rs) / Q_of_nat (length (records_of ep rs)))%Q /\
          ep_status_codes s = status_histogram (records_of ep rs)
      end.
Proof.
  destruct (endpoint_report_ok rs) as [rep Hrep]. exists rep. split; [exact Hrep |].
  unfold endpoint_report in Hrep. apply mapM_Forall2 in Hrep.
  intros ep. rewrite (averaged_get _ _ ep Hrep), tally_get. unfold tallied.
  destruct (records_of ep rs) as [| r0 l] eqn:E; [reflexivity |].
  simpl. repeat split. discriminate.
Qed.

(** ** Whole sessions *)

Lemma pass_time_data (env : Env) (d : Q) (w : World) :
  stats (self (pass_time env d w)) = stats (self w) /\
  responses (self (pass_time env d w)) = responses (self w).
Proof. unfold pass_time. destruct (signal_due env _); done. Qed.

Lemma sampling_loop_result (P : World -> Prop) (env : Env) (active : list string)
    (end_time : Q) :
  (forall k w, P w -> running (self w) = true -> (clock w < end_time)%Q ->
               P (after_round env k active w)) ->
  forall fuel k w, P w ->
    exists r w', sampling_loop fuel env active end_time k w = (r, w') /\ P w' /\
                 (r = Ok tt \/ r = OutOfFuel).
Proof.
  intros Hround. induction fuel as [| fuel IH]; intros k w Hw.
  - exists OutOfFuel, w. split; [reflexivity | split; [exact Hw | by right]].
  - cbn [sampling_loop]. unfold bind at 1, get at 1.
    destruct (Qlt_le_dec (clock w) end_time) as [Hlt | Hge];
      [| exists (Ok tt), w; split; [reflexivity | split; [exact Hw | by left]]].
    destruct (running (self w)) eqn:Hr;
      [| exists (Ok tt), w; split; [reflexivity | split; [exact Hw | by left]]].
    unfold bind at 1. rewrite sampling_round_runs.
    apply IH. by apply Hround.
Qed.

Lemma after_connectivity_inv (P : World -> Prop) (env : Env) (eps : list string) (w : World) :
  (forall w0 d, P w0 -> P (pass_time env d w0)) -> P w -> P (after_connectivity env eps w).
Proof.
  intros Hp. revert w. induction eps as [| ep eps IH]; intros w Hw; simpl; [exact Hw |].
  apply IH, Hp, Hw.
Qed.

(** How a session that returns has run: the probe, then either nothing
    more, or rounds followed by the reports. *)
Lemma monitor_responses_after_probe (P : World -> Prop) (env : Env) (w : World)
    (fuel : nat) (w' : World) :
  let active := active_of (connectivity_of env (endpoints (self w)) []) in
  let end_time := (clock w + inject_Z (duration (self w)))%Q in
  let w0 := with_self (set_start_time (clock w)) w in
  let w1 := after_connectivity env (endpoints (self w)) w0 in
  (forall k x, P x -> running (self x) = true -> (clock x < end_time)%Q ->
               P (after_round env k active x)) ->
  P w1 ->
  monitor_responses fuel env w = (Ok tt, w') ->
  (active = [] /\ w' = w1) \/
  (active <> [] /\
   exists w2, P w2 /\ steady w0 w2 /\ generate_reports w2 = (Ok tt, w')).
Proof.
  intros active end_time w0 w1 Hround Hw1 Hrun.
  assert (Hprobe : test_endpoint_connectivity env w0 =
                   (Ok (connectivity_of env (endpoints (self w)) []), w1)).
  { unfold test_endpoint_connectivity, bind, get. apply probe_endpoints_runs. }
  pose proof (after_connectivity_steady env (endpoints (self w)) w0) as Hs1. fold w1 in Hs1.
  unfold monitor_responses, bind at 1, time_time at 1 in Hrun.
  unfold bind at 1, modify at 1 in Hrun. fold w0 in Hrun.
  unfold bind at 1 in Hrun. rewrite Hprobe in Hrun. fold active in Hrun.
  destruct active as [| a rest] eqn:Ea.
  - left. split; [reflexivity |]. by injection Hrun as <-.
  - right. split; [discriminate |].
    unfold bind at 1, get at 1 in Hrun. unfold bind at 1, lift at 1 in Hrun.
    assert (Hst1 : start_time (self w1) = Some (clock w)).
    { destruct Hs1 as (_ & _ & -> & _). reflexivity. }
    assert (Hd1 : duration (self w1) = duration (self w)).
    { destruct Hs1 as (-> & _). reflexivity. }
    rewrite Hst1, Hd1 in Hrun. fold end_time in Hrun.
    unfold bind at 1 in Hrun.
    destruct (sampling_loop_result (fun x => P x /\ steady w0 x) env (a :: rest) end_time)
      with (fuel := fuel) (k := 0) (w := w1) as (r & w2 & Hloop & [Hw2 Hs2] & Hr).
    + intros k x [Hx Hsx] Hrx Hcx. split; [by apply Hround |].
      eapply steady_trans; [exact Hsx | apply after_round_steady].
    + split; [exact Hw1 | exact Hs1].
    + rewrite Hloop in Hrun. destruct Hr as [-> | ->]; [| discriminate].
      exists w2. done.
Qed.

Lemma monitor_responses_session (P : World -> Prop) (env : Env) (w : World)
    (fuel : nat) (w' : World) :
  let active := active_of (connectivity_of env (endpoints (self w)) []) in
  let end_time := (clock w + inject_Z (duration (self w)))%Q in
  let w0 := with_self (set_start_time (clock w)) w in
  (forall w1 d, P w1 -> P (pass_time env d w1)) ->
  (forall k w1, P w1 -> running (self w1) = true -> (clock w1 < end_time)%Q ->
                P (after_round env k active w1)) ->
  P w0 ->
  monitor_responses fuel env w = (Ok tt, w') ->
  (active = [] /\ P w') \/
  (active <> [] /\
   exists w2, P w2 /\ steady w0 w2 /\ generate_reports w2 = (Ok tt, w')).
Proof.
  intros active end_time w0 Hpass Hround Hw0 Hrun.
  assert (Hw1 : P (after_connectivity env (endpoints (self w)) w0))
    by (by apply after_connectivity_inv).
  destruct (monitor_responses_after_probe P env w fuel w' Hround Hw1 Hrun)
    as [[Ha ->] | H]; [left | right]; done.
Qed.

(** ** Termination of the session *)

(** A round whose requests each take at least [step] seconds and that leaves
    the flag set has taken at least [step] seconds. *)
Lemma after_round_probe_time (env : Env) (k : nat) (active : list string) (w : World)
    (step : Q) :
  active <> [] ->
  (forall j ep, (step <= elapsed_of (probe env j ep))%Q) ->
  running (self w) = true ->
  running (self (after_round env k active w)) = true ->
  (clock w + step <= clock (after_round env k active w))%Q.
Proof.
  intros Hne Hstep Hr Hr'. unfold after_round in *.
  destruct (started_frame env k active w) as (Hc1 & _ & _ & _ & _ & Hr1).
  cbv zeta in Hc1, Hr1. rewrite Hr in Hr1. cbn [andb] in Hr1.
  set (w1 := started env k active w) in *.
  set (tasks := dispatched env k active w) in *.
  pose proof (settled_steady env tasks w1) as (_ & _ & _ & _ & _ & _ & _ & _ & Hoff2 & _).
  pose proof (slept_steady env (settled env tasks w1))
    as (_ & _ & _ & _ & _ & _ & _ & _ & Hoff3 & Hc3).
  destruct (interrupted env k (Nat.min 5 (length active))) eqn:Hint; cbn [negb] in Hr1.
  { rewrite Hoff3 in Hr' by (by apply Hoff2). discriminate. }
  assert (Et : exists ep rest, tasks = task_for env k ep :: rest).
  { subst tasks. unfold dispatched. rewrite Hr. cbv zeta.
    rewrite created_whole by exact Hint.
    destruct active as [| ep rest]; [done |]. cbn [length Nat.min take map].
    by eexists _, _. }
  destruct Et as (ep & rest & Et).
  rewrite settled_nonempty in Hc3 |- * by (rewrite Et; simpl; lia).
  rewrite Hc1 in Hc3 |- *. cbn [keep clock] in Hc3.
  destruct (gathered_frame env tasks w1) as (_ & _ & Hc2 & _). rewrite Hc2, Hc1 in Hc3.
  assert (Hl : (step <= longest tasks)%Q).
  { rewrite Et. cbn [longest foldr task_for task_outcome].
    eapply Qle_trans; [apply (Hstep k ep) | apply Q.le_max_l]. }
  pose proof (Q.le_max_r 0 (longest tasks)). lra.
Qed.

(** The loop ends when every round that leaves the flag set takes at least
    [step] seconds: [n] rounds are enough for a deadline that is less than
    [n * step] seconds away. *)
Lemma sampling_loop_halts (env : Env) (active : list string) (end_time step : Q) (i : Z) :
  (0 < step)%Q ->
  (forall k x, sample_interval (self x) = i -> running (self x) = true ->
               running (self (after_round env k active x)) = true ->
               (clock x + step <= clock (after_round env k active x))%Q) ->
  forall (n k : nat) (w : World),
    sample_interval (self w) = i ->
    (end_time - clock w < inject_Z (Z.of_nat n) * step)%Q ->
    exists w', sampling_loop (S (S n)) env active end_time k w = (Ok tt, w') /\ steady w w'.
Proof.
  intros Hpos Hadv. induction n as [| m IH]; intros k w Hi Hn.
  - exists w. split; [| apply steady_refl].
    cbn [sampling_loop]. unfold bind, get.
    destruct (Qlt_le_dec (clock w) end_time) as [Hlt | _]; [| reflexivity].
    exfalso. change (inject_Z (Z.of_nat 0)) with 0%Q in Hn. lra.
  - cbn [sampling_loop]. unfold bind at 1, get at 1.
    destruct (Qlt_le_dec (clock w) end_time) as [Hlt | Hge];
      [| exists w; split; [reflexivity | apply steady_refl]].
    destruct (running (self w)) eqn:Hr;
      [| exists w; split; [reflexivity | apply steady_refl]].
    unfold bind at 1. rewrite sampling_round_runs.
    pose proof (after_round_steady env k active w) as Hs.
    pose proof (Hadv k w Hi Hr) as Hc.
    set (w1 := after_round env k active w) in *.
    destruct (running (self w1)) eqn:Hr1.
    + destruct (IH (S k) w1) as (w' & Hrun & Hs').
      * destruct Hs as (_ & -> & _). exact Hi.
      * specialize (Hc eq_refl).
        assert (E : (inject_Z (Z.of_nat (S m)) * step ==
                     inject_Z (Z.of_nat m) * step + step)%Q).
        { rewrite Nat2Z.inj_succ. unfold Z.succ. rewrite inject_Z_plus. ring. }
        rewrite E in Hn. lra.
      * exists w'. split; [exact Hrun | eapply steady_trans; eassumption].
    + exists w1. split; [| exact Hs].
      cbn [sampling_loop]. unfold bind, get. rewrite Hr1.
      destruct (Qlt_le_dec (clock w1) end_time); reflexivity.
Qed.

Lemma exists_rounds (x step : Q) :
  (0 < step)%Q -> exists n : nat, (x < inject_Z (Z.of_nat n) * step)%Q.
Proof.
  intros Hpos. destruct (exists_fuel (x / step)) as [n Hn]. exists n.
  apply (Qmult_lt_compat_r _ _ step Hpos) in Hn.
  assert (E : (x / step * step == x)%Q) by (field; lra).
  by rewrite E in Hn.
Qed.

(** [monitor_responses] once the connectivity probe is through: either
    nothing more, or the loop and then the reports. *)
Lemma monitor_responses_unfold (fuel : nat) (env : Env) (w : World) :
  let active := active_of (connectivity_of env (endpoints (self w)) []) in
  let end_time := (clock w + inject_Z (duration (self w)))%Q in
  let w0 := with_self (set_start_time (clock w)) w in
  let w1 := after_connectivity env (endpoints (self w)) w0 in
  monitor_responses fuel env w =
    match active with
    | [] => (Ok tt, w1)
    | _ :: _ =>
        bind (sampling_loop fuel env active end_time 0) (fun _ => generate_reports) w1
    end.
Proof.
  intros active end_time w0 w1.
  assert (Hprobe : test_endpoint_connectivity env w0 =
                   (Ok (connectivity_of env (endpoints (self w)) []), w1)).
  { unfold test_endpoint_connectivity, bind, get. apply probe_endpoints_runs. }
  pose proof (after_connectivity_steady env (endpoints (self w)) w0) as Hs1. fold w1 in Hs1.
  unfold monitor_responses, bind at 1, time_time at 1.
  unfold bind at 1, modify at 1. fold w0.
  unfold bind at 1. rewrite Hprobe. fold active.
  destruct active as [| a rest]; [reflexivity |].
  unfold bind at 1, get at 1. unfold bind at 1, lift at 1.
  assert (Hst1 : start_time (self w1) = Some (clock w)).
  { destruct Hs1 as (_ & _ & -> & _). reflexivity. }
  assert (Hd1 : duration (self w1) = duration (self w)).
  { destruct Hs1 as (-> & _). reflexivity. }
  rewrite Hst1, Hd1. reflexivity.
Qed.

(** C1, amended.  Whether the session ends because the deadline has passed
    or because a signal has cleared the flag, [generate_reports] is called
    exactly once, as the last thing the session does, and the summary, the
    CSV and the endpoint performance report are written, provided at least
    one endpoint answered the connectivity probe.  When none answered, the
    session returns with no call of [generate_reports] and leaves the files
    as they were.  This holds of every session that returns, whatever its
    sampling interval.  No session raises, and the session does return when
    no endpoint answered, when the sampling interval is positive, or when
    every request takes at least some fixed positive time. *)
Theorem monitor_responses_reports (env : Env) (w : World) :
  let reachable := existsb (fun ep => snd (connect env ep)) (endpoints (self w)) in
  (forall fuel w',
     monitor_responses fuel env w = (Ok tt, w') ->
     if reachable
     then reports_generated w' = S (reports_generated w) /\
          last (trace w') = Some (EvGenerateReports (clock w')) /\
          is_Some (response_summary_json (files w')) /\
          is_Some (status_code_distribution_csv (files w')) /\
          is_Some (endpoint_performance_json (files w'))
     else reports_generated w' = reports_generated w /\
          trace w' = trace w /\
          files w' = files w) /\
  (forall fuel, exists r w',
     monitor_responses fuel env w = (r, w') /\ (r = Ok tt \/ r = OutOfFuel)) /\
  (reachable = false \/
   (0 < sample_interval (self w))%Z \/
   (exists step, (0 < step)%Q /\ forall k ep, (step <= elapsed_of (probe env k ep))%Q) ->
   exists fuel w', monitor_responses fuel env w = (Ok tt, w')).
Proof.
  intros reachable.
  pose proof (fun fuel => monitor_responses_unfold fuel env w) as Hunf. cbv zeta in Hunf.
  set (w0 := with_self (set_start_time (clock w)) w) in *.
  set (w1 := after_connectivity env (endpoints (self w)) w0) in *.
  set (end_time := (clock w + inject_Z (duration (self w)))%Q) in *.
  pose proof (after_connectivity_steady env (endpoints (self w)) w0) as Hs1.
  destruct (after_connectivity_files env (endpoints (self w)) w0) as [Hf1 Ht1].
  fold w1 in Hs1, Hf1, Ht1.
  pose proof (active_endpoints_nil env (endpoints (self w))) as Hact.
  fold reachable in Hact.
  set (active := active_of (connectivity_of env (endpoints (self w)) [])) in *.
  assert (Hloop : forall fuel, exists r w2,
            sampling_loop fuel env active end_time 0 w1 = (r, w2) /\ steady w0 w2 /\
            (r = Ok tt \/ r = OutOfFuel)).
  { intros fuel.
    apply (sampling_loop_result (fun x => steady w0 x) env active end_time);
      [| exact Hs1].
    intros k x Hx _ _. eapply steady_trans; [exact Hx | apply after_round_steady]. }
  assert (Hgen : forall w2, steady w0 w2 ->
            exists w', generate_reports w2 = (Ok tt, w') /\
              reports_generated w' = S (reports_generated w) /\
              last (trace w') = Some (EvGenerateReports (clock w')) /\
              is_Some (response_summary_json (files w')) /\
              is_Some (status_code_distribution_csv (files w')) /\
              is_Some (endpoint_performance_json (files w'))).
  { intros w2 Hs2.
    assert (Hst2 : start_time (self w2) = Some (clock w))
      by (destruct Hs2 as (_ & _ & -> & _); reflexivity).
    destruct (generate_reports_runs w2 (clock w) Hst2)
      as (ls & summary & rows & eps & _ & _ & _ & _ & ->).
    eexists. split; [reflexivity |]. cbn [files trace clock].
    split.
    - unfold reports_generated at 1. cbn [trace].
      rewrite List.filter_app, length_app. simpl. fold (reports_generated w2).
      destruct Hs2 as (_ & _ & _ & _ & -> & _).
      change (reports_generated w0) with (reports_generated w). lia.
    - split; [by rewrite last_snoc |]. repeat split; by eexists. }
  split; [| split].
  - intros fuel w' Hrun. rewrite Hunf in Hrun.
    destruct active as [| a rest] eqn:Ea.
    + injection Hrun as <-.
      replace reachable with false by (symmetry; by apply Hact).
      split; [| split; [exact Ht1 | exact Hf1]].
      destruct Hs1 as (_ & _ & _ & _ & -> & _). reflexivity.
    + destruct reachable eqn:Ex;
        [| destruct Hact as [_ Hact]; by specialize (Hact eq_refl)].
      destruct (Hloop fuel) as (r & w2 & Hl & Hs2 & Hr).
      unfold bind in Hrun. rewrite Hl in Hrun.
      destruct Hr as [-> | ->]; [| discriminate].
      destruct (Hgen w2 Hs2) as (w'' & Hg & Hrep). rewrite Hg in Hrun.
      injection Hrun as <-. exact Hrep.
  - intros fuel. rewrite Hunf.
    destruct active as [| a rest] eqn:Ea; [by eexists _, _; split; [| left] |].
    destruct (Hloop fuel) as (r & w2 & Hl & Hs2 & Hr).
    unfold bind. rewrite Hl.
    destruct Hr as [-> | ->]; [| by eexists _, _; split; [| right]].
    destruct (Hgen w2 Hs2) as (w'' & Hg & _). rewrite Hg.
    by eexists _, _; split; [| left].
  - intros Hcase.
    destruct active as [| a rest] eqn:Ea;
      [exists 0, w1; by rewrite Hunf |].
    assert (Hstep : exists step, (0 < step)%Q /\
              forall k x, sample_interval (self x) = sample_interval (self w) ->
                running (self x) = true ->
                running (self (after_round env k (a :: rest) x)) = true ->
                (clock x + step <= clock (after_round env k (a :: rest) x))%Q).
    { destruct Hcase as [Hnone | [Hi | (step & Hpos & Hprobe)]].
      - apply Hact in Hnone. discriminate.
      - exists 1%Q. split; [reflexivity |]. intros k x Hx _ Hr'.
        pose proof (after_round_running env k (a :: rest) x Hr') as Hc. rewrite Hx in Hc.
        assert (H1 : (1 <= inject_Z (sample_interval (self w)))%Q).
        { change 1%Q with (inject_Z 1). rewrite <- Zle_Qle. lia. }
        lra.
      - exists step. split; [exact Hpos |]. intros k x _ Hr Hr'.
        by apply after_round_probe_time. }
    destruct Hstep as (step & Hpos & Hadv).
    destruct (exists_rounds (end_time - clock w1) step Hpos) as [n Hn].
    assert (Hi1 : sample_interval (self w1) = sample_interval (self w))
      by (destruct Hs1 as (_ & -> & _); reflexivity).
    destruct (sampling_loop_halts env (a :: rest) end_time step _ Hpos Hadv n 0 w1 Hi1 Hn)
      as (w2 & Hl & Hs2).
    destruct (Hgen w2 (steady_trans _ _ _ Hs1 Hs2)) as (w'' & Hg & _).
    exists (S (S n)), w''. rewrite Hunf. unfold bind. by rewrite Hl.
Qed.

(** C1, amended, at a session of 60 s with an interval of 2 s that a signal
    ends at 1003 s, and at one whose interval is zero: both return, with one
    call of [generate_reports], the last event of the session. *)
Lemma monitor_responses_reports_witness :
  (exists fuel w',
     monitor_responses fuel env_signal_at_1003 (new_world 60 2 1000) = (Ok tt, w') /\
     reports_generated w' = 1 /\
     last (trace w') = Some (EvGenerateReports (clock w')) /\
     is_Some (response_summary_json (files w')) /\
     is_Some (status_code_distribution_csv (files w')) /\
     is_Some (endpoint_performance_json (files w'))) /\
  (exists fuel w',
     monitor_responses fuel env_signal_in_dispatch (new_world 2 0 1000) = (Ok tt, w') /\
     reports_generated w' = 1 /\
     last (trace w') = Some (EvGenerateReports (clock w')) /\
     is_Some (response_summary_json (files w')) /\
     is_Some (status_code_distribution_csv (files w')) /\
     is_Some (endpoint_performance_json (files w'))).
Proof.
  split.
  - destruct (monitor_responses_reports env_signal_at_1003 (new_world 60 2 1000))
      as (Hrep & _ & Hret).
    destruct Hret as (fuel & w' & Hrun); [right; left; reflexivity |].
    exists fuel, w'. split; [exact Hrun |]. exact (Hrep fuel w' Hrun).
  - destruct (monitor_responses_reports env_signal_in_dispatch (new_world 2 0 1000))
      as (Hrep & _ & Hret).
    destruct Hret as (fuel & w' & Hrun).
    { right; right. exists (1 # 2)%Q. split; [reflexivity |]. intros k ep. apply Qle_refl. }
    exists fuel, w'. split; [exact Hrun |]. exact (Hrep fuel w' Hrun).
Defined.
Lemma progress_refl (sampled : list string) (w : World) : progress sampled w w.
Proof.
  exists []. rewrite !app_nil_r.
  split; [reflexivity |]. split; [reflexivity |]. split; [constructor |].
  split; [simpl; lia | done].
Qed.

Lemma progress_pass_time (sampled : list string) (env : Env) (d : Q) (w w1 : World) :
  progress sampled w w1 -> progress sampled w (pass_time env d w1).
Proof.
  intros (rs & H1 & H2 & H3 & H4 & H5). exists rs.
  destruct (pass_time_data env d w1) as [-> ->].
  destruct (pass_time_frame env d w1) as [-> _]. done.
Qed.

Lemma after_probes_total (probes : list (string * NetOutcome)) (w : World) :
  total_requests (stats (self (after_probes probes w))) =
    total_requests (stats (self w)) + length probes.
Proof.
  revert w. induction probes as [| [ep o] rest IH]; intros w; simpl; [lia |].
  rewrite IH. simpl. destruct o; simpl; lia.
Qed.

Lemma record_of_endpoint (o : NetOutcome) (ep : string) (t : Q) :
  endpoint (record_of o ep t) = ep.
Proof. destruct o; reflexivity. Qed.

Lemma progress_settled (sampled : list string) (env : Env) (tasks : list Task) (w w1 : World) :
  Forall (fun t => task_endpoint t ∈ sampled) tasks ->
  progress sampled w w1 -> progress sampled w (settled env tasks w1).
Proof.
  intros Ht (rs & H1 & H2 & H3 & H4 & H5).
  destruct tasks as [| t rest]; [by exists rs |].
  set (ts := t :: rest) in *.
  exists (rs ++ map (task_record (clock w1)) ts).
  destruct (gathered_frame env ts w1) as (Hf & Hr & _).
  rewrite settled_nonempty by (simpl; lia).
  cbn [keep self files responses openapi_responses_jsonl stats].
  rewrite Hf, Hr, H1, H2, !app_assoc.
  split; [reflexivity |]. split; [reflexivity |].
  split.
  { apply Forall_app. split; [exact H3 |].
    apply Forall_fmap. eapply Forall_impl; [exact Ht |].
    intros x Hx. unfold task_record. simpl. by rewrite record_of_endpoint. }
  assert (Hst : stats (self (gathered env ts w1)) = stats (self (after_probes (task_probes ts) w1))).
  { unfold gathered. cbn [emit self]. by destruct (pass_time_data env (longest ts)
                                          (after_probes (task_probes ts) w1)) as [-> _]. }
  rewrite Hst. split.
  - rewrite after_probes_total, H4, length_app, length_map. unfold task_probes.
    rewrite length_map. lia.
  - intros Hc. apply after_probes_consistent, H5, Hc.
Qed.

Lemma progress_slept (sampled : list string) (env : Env) (w w1 : World) :
  progress sampled w w1 -> progress sampled w (slept env w1).
Proof.
  intros H. unfold slept. destruct (running (self w1)); [| exact H].
  apply (progress_pass_time sampled env (inject_Z (sample_interval (self w1)))) in H.
  destruct H as (rs & H1 & H2 & H3 & H4 & H5). exists rs. done.
Qed.

Lemma dispatched_endpoints (env : Env) (k : nat) (active : list string) (w : World) :
  Forall (fun t => task_endpoint t ∈ take (Nat.min 5 (length active)) active)
         (dispatched env k active w).
Proof.
  unfold dispatched. cbv zeta. destruct (running (self w)); [| constructor].
  apply Forall_fmap, Forall_forall. intros ep Hep. simpl.
  eapply subseteq_take. exact Hep.
Qed.

Lemma progress_started (sampled : list string) (env : Env) (k : nat) (active : list string)
    (w w1 : World) :
  progress sampled w w1 -> progress sampled w (started env k active w1).
Proof.
  intros (rs & H1 & H2 & H3 & H4 & H5). exists rs.
  destruct (started_frame env k active w1) as (_ & -> & _ & -> & -> & _). done.
Qed.

Lemma progress_after_round (env : Env) (k : nat) (active : list string) (w w1 : World) :
  progress (take (Nat.min 5 (length active)) active) w w1 ->
  progress (take (Nat.min 5 (length active)) active) w (after_round env k active w1).
Proof.
  intros H. unfold after_round.
  apply progress_slept, progress_settled; [apply dispatched_endpoints |].
  by apply progress_started.
Qed.

(** The progress of a session that has returned. *)
Lemma session_progress (env : Env) (w : World) (fuel : nat) (w' : World) :
  let active := active_of (connectivity_of env (endpoints (self w)) []) in
  monitor_responses fuel env w = (Ok tt, w') ->
  progress (take (Nat.min 5 (length active)) active) w w' /\
  (active = [] \/
   exists summary,
     response_summary_json (files w') = Some summary /\
     build_summary (self w') (latency_statistics summary) = Ok summary).
Proof.
  intros active Hrun.
  set (sampled := take (Nat.min 5 (length active)) active).
  destruct (monitor_responses_session (progress sampled w) env w fuel w')
    as [[Ha Hp] | (Ha & w2 & Hp & Hs & Hgen)].
  - intros w1 d. apply progress_pass_time.
  - intros k w1 Hw1 _ _. by apply progress_after_round.
  - destruct (progress_refl sampled w) as (rs & H1 & H2 & H3 & H4 & H5). exists rs. done.
  - exact Hrun.
  - split; [exact Hp | by left].
  - assert (Hst : start_time (self w2) = Some (clock w)).
    { destruct Hs as (_ & _ & -> & _). reflexivity. }
    destruct (generate_reports_runs w2 (clock w) Hst)
      as (ls & summary & rows & eps & Hls & Hsum & Hrows & Heps & Hgen').
    rewrite Hgen' in Hgen. injection Hgen as <-.
    split.
    + destruct Hp as (rs & H1 & H2 & H3 & H4 & H5). exists rs. done.
    + right. exists summary. cbn [files response_summary_json self]. split; [reflexivity |].
      destruct (build_summary_ok (self w2) ls (clock w) Hst) as (s & Hs' & Hlat & _).
      rewrite Hs' in Hsum. injection Hsum as <-. rewrite Hlat. exact Hs'.
Qed.

Lemma dict_upd_fresh {V} (k : string) (f : option V -> V) (d : dict V) :
  k ∉ map fst d -> dict_upd k f d = d ++ [(k, f None)].
Proof.
  induction d as [| [k0 v0] d IH]; simpl; intros Hk; [reflexivity |].
  apply not_elem_of_cons in Hk as [Hne Hk].
  destruct (String.eqb_spec k k0); [contradiction |]. by rewrite IH.
Qed.

Lemma connectivity_of_distinct (env : Env) (eps : list string) (acc : dict bool) :
  NoDup eps -> (forall ep, ep ∈ eps -> ep ∉ map fst acc) ->
  connectivity_of env eps acc = acc ++ map (fun ep => (ep, snd (connect env ep))) eps.
Proof.
  intros Hn. revert acc. induction Hn as [| ep eps Hnot Hn IH]; intros acc Hd; simpl.
  - by rewrite app_nil_r.
  - rewrite dict_upd_fresh by (apply Hd; by left).
    change (foldl _ (acc ++ [(ep, (connect env ep).2)]) eps)
      with (connectivity_of env eps (acc ++ [(ep, (connect env ep).2)])).
    rewrite IH.
    + by rewrite <- app_assoc.
    + intros x Hx. rewrite map_app, elem_of_app. simpl. intros [H | H].
      * revert H. apply Hd. by right.
      * apply list_elem_of_singleton in H. by subst.
Qed.

Lemma active_of_map (g : string -> bool) (eps : list string) :
  active_of (map (fun ep => (ep, g ep)) eps) = List.filter g eps.
Proof.
  unfold active_of. induction eps as [| ep eps IH]; simpl; [reflexivity |].
  destruct (g ep); simpl; by rewrite IH.
Qed.

Lemma active_endpoints_distinct (env : Env) (eps : list string) :
  NoDup eps ->
  active_of (connectivity_of env eps []) = List.filter (fun ep => snd (connect env ep)) eps.
Proof.
  intros Hn. rewrite connectivity_of_distinct; [| exact Hn | intros ep _; apply not_elem_of_nil].
  simpl. apply active_of_map.
Qed.

(** The twelve configured endpoints are distinct. *)
Lemma init_endpoints_distinct (d i : Z) : NoDup (endpoints (init d i)).
Proof. apply (bool_decide_unpack _). vm_compute. exact I. Qed.

(** [test_endpoint_connectivity] never raises.  For distinct endpoints its
    result has one entry per configured endpoint, in configuration order,
    saying whether the GET was answered; so the active endpoints are the
    configured ones that answered, in configuration order.  The probe
    changes neither the statistics nor the records nor the files. *)
Theorem connectivity_probe_result (env : Env) (w : World) :
  NoDup (endpoints (self w)) ->
  exists connectivity w',
    test_endpoint_connectivity env w = (Ok connectivity, w') /\
    connectivity = map (fun ep => (ep, snd (connect env ep))) (endpoints (self w)) /\
    active_of connectivity =
      List.filter (fun ep => snd (connect env ep)) (endpoints (self w)) /\
    stats (self w') = stats (self w) /\
    responses (self w') = responses (self w) /\
    files w' = files w.
Proof.
  intros Hn. eexists _, _.
  split; [unfold test_endpoint_connectivity, bind, get; apply probe_endpoints_runs |].
  split.
  { rewrite connectivity_of_distinct; [reflexivity | exact Hn |].
    intros ep _. apply not_elem_of_nil. }
  split; [by apply active_endpoints_distinct |].
  set (P := fun x : World => stats (self x) = stats (self w) /\
                             responses (self x) = responses (self w) /\
                             files x = files w).
  assert (HP : P (after_connectivity env (endpoints (self w)) w)).
  { apply after_connectivity_inv; [| done].
    intros w0 d (H1 & H2 & H3). unfold P.
    destruct (pass_time_data env d w0) as [-> ->].
    destruct (pass_time_frame env d w0) as [-> _]. done. }
  exact HP.
Qed.

(** The probe of the twelve configured endpoints. *)
Lemma connectivity_probe_result_witness :
  NoDup (endpoints (self (new_world 60 2 1000))) /\
  exists connectivity w',
    test_endpoint_connectivity env_signal_at_1003 (new_world 60 2 1000) = (Ok connectivity, w') /\
    connectivity = map (fun ep => (ep, snd (connect env_signal_at_1003 ep)))
                       (endpoints (self (new_world 60 2 1000))) /\
    active_of connectivity =
      List.filter (fun ep => snd (connect env_signal_at_1003 ep))
                  (endpoints (self (new_world 60 2 1000))) /\
    stats (self w') = stats (self (new_world 60 2 1000)) /\
    responses (self w') = responses (self (new_world 60 2 1000)) /\
    files w' = files (new_world 60 2 1000).
Proof.
  split; [apply init_endpoints_distinct |].
  apply (connectivity_probe_result env_signal_at_1003 (new_world 60 2 1000)).
  apply init_endpoints_distinct.
Defined.

Lemma take_min_length {A} (n : nat) (l : list A) :
  take (Nat.min n (length l)) l = take n l.
Proof.
  destruct (Nat.min_spec n (length l)) as [[_ ->] | [Hle ->]]; [reflexivity |].
  by rewrite !take_ge by lia.
Qed.

(** Every record a session adds is of one of the first five endpoints that
    answered the connectivity probe: an endpoint that did not answer, and an
    answering endpoint after the fifth, is never sampled. *)
Theorem only_the_first_five_are_sampled (env : Env) (w : World) (fuel : nat) (w' : World) :
  NoDup (endpoints (self w)) ->
  monitor_responses fuel env w = (Ok tt, w') ->
  let answering := List.filter (fun ep => snd (connect env ep)) (endpoints (self w)) in
  exists rs,
    openapi_responses_jsonl (files w') = openapi_responses_jsonl (files w) ++ rs /\
    Forall (fun r => endpoint r ∈ take 5 answering /\
                     snd (connect env (endpoint r)) = true) rs.
Proof.
  intros Hn Hrun answering.
  destruct (session_progress env w fuel w' Hrun) as [(rs & _ & Hlog & Hall & _) _].
  rewrite (active_endpoints_distinct env _ Hn) in Hall. fold answering in Hall.
  exists rs. split; [exact Hlog |].
  eapply Forall_impl; [exact Hall |]. intros r Hr. cbv beta in Hr.
  rewrite take_min_length in Hr. split; [exact Hr |].
  assert (Hin : endpoint r ∈ answering) by (eapply subseteq_take; exact Hr).
  apply list_elem_of_In, List.filter_In in Hin as [_ H]. exact H.
Qed.

(** A session of 60 s with a signal at 1003 s samples five endpoints. *)
Lemma only_the_first_five_are_sampled_witness :
  let w := new_world 60 2 1000 in
  let w' := snd (monitor_responses 10 env_signal_at_1003 w) in
  NoDup (endpoints (self w)) /\
  monitor_responses 10 env_signal_at_1003 w = (Ok tt, w') /\
  let answering :=
    List.filter (fun ep => snd (connect env_signal_at_1003 ep)) (endpoints (self w)) in
  exists rs,
    openapi_responses_jsonl (files w') = openapi_responses_jsonl (files w) ++ rs /\
    Forall (fun r => endpoint r ∈ take 5 answering /\
                     snd (connect env_signal_at_1003 (endpoint r)) = true) rs.
Proof.
  cbv zeta. split; [apply init_endpoints_distinct |].
  split; [vm_compute; reflexivity |].
  apply (only_the_first_five_are_sampled env_signal_at_1003 (new_world 60 2 1000) 10
           (snd (monitor_responses 10 env_signal_at_1003 (new_world 60 2 1000)))).
  - apply init_endpoints_distinct.
  - vm_compute. reflexivity.
Defined.

(** The records a session keeps in [self.responses] are exactly the lines it
    appends to the log, in the same order; the log is only ever appended to;
    and [total_requests] grows by the number of these records. *)
Theorem log_mirrors_responses (env : Env) (w : World) (fuel : nat) (w' : World) :
  monitor_responses fuel env w = (Ok tt, w') ->
  exists rs,
    responses (self w') = responses (self w) ++ rs /\
    openapi_responses_jsonl (files w') = openapi_responses_jsonl (files w) ++ rs /\
    total_requests (stats (self w')) = total_requests (stats (self w)) + length rs.
Proof.
  intros Hrun.
  destruct (session_progress env w fuel w' Hrun) as [(rs & H1 & H2 & _ & H4 & _) _].
  exists rs. done.
Qed.

(** The log and the records of that session. *)
Lemma log_mirrors_responses_witness :
  let w := new_world 60 2 1000 in
  let w' := snd (monitor_responses 10 env_signal_at_1003 w) in
  monitor_responses 10 env_signal_at_1003 w = (Ok tt, w') /\
  exists rs,
    responses (self w') = responses (self w) ++ rs /\
    openapi_responses_jsonl (files w') = openapi_responses_jsonl (files w) ++ rs /\
    total_requests (stats (self w')) = total_requests (stats (self w)) + length rs.
Proof.
  cbv zeta. split; [vm_compute; reflexivity |].
  apply (log_mirrors_responses env_signal_at_1003 (new_world 60 2 1000) 10
           (snd (monitor_responses 10 env_signal_at_1003 (new_world 60 2 1000)))).
  vm_compute. reflexivity.
Defined.

Lemma build_summary_fields (m : Monitor) (ls : option LatencyStats) (s : Summary) :
  build_summary m ls = Ok s ->
  total_responses s = length (responses m) /\
  stat_total_requests s = total_requests (stats m) /\
  stat_successful_requests s = successful_requests (stats m) /\
  stat_failed_requests s = failed_requests (stats m) /\
  status_code_distribution s = status_codes (stats m) /\
  total_errors s = length (errors (stats m)) /\
  duration_seconds s = duration m /\
  sample_interval_seconds s = sample_interval m /\
  endpoints_monitored s = endpoints m.
Proof.
  unfold build_summary. destruct (start_time m); simpl; [| discriminate].
  rewrite truediv_ok by (apply Q_of_nat_nonzero; lia). simpl.
  intros [= <-]. simpl. done.
Qed.

(** The summary a session on a fresh monitor writes agrees with what the
    session logged, whatever the output directory held before.  When at
    least one endpoint answered the probe, the session writes a summary;
    [total_responses] is the number of lines the session appended to the log
    and equals [total_requests]; [total_requests] is the sum of the
    successful and the failed requests; and the counts of the status-code
    distribution plus [total_errors] give [total_requests]. *)
Theorem fresh_session_summary_agrees
    (env : Env) (d i : Z) (f0 : Files) (t0 : Q) (tr : list Event)
    (fuel : nat) (w' : World) :
  let w := {| self := init d i; files := f0; clock := t0; trace := tr |} in
  existsb (fun ep => snd (connect env ep)) (endpoints (init d i)) = true ->
  monitor_responses fuel env w = (Ok tt, w') ->
  exists summary,
    response_summary_json (files w') = Some summary /\
    length (openapi_responses_jsonl (files w')) =
      length (openapi_responses_jsonl f0) + total_responses summary /\
    stat_total_requests summary = total_responses summary /\
    stat_total_requests summary =
      stat_successful_requests summary + stat_failed_requests summary /\
    hist_total (status_code_distribution summary) + total_errors summary =
      stat_total_requests summary.
Proof.
  intros w Hex Hrun.
  destruct (session_progress env w fuel w' Hrun)
    as [(rs & H1 & H2 & _ & H4 & H5) [Ha | (s & Hs & Hb)]].
  - apply (active_endpoints_nil env (endpoints (init d i))) in Ha.
    rewrite Ha in Hex. discriminate.
  - exists s. split; [exact Hs |].
    destruct (build_summary_fields _ _ _ Hb) as (F1 & F2 & F3 & F4 & F5 & F6 & _).
    cbn [w self files responses stats init initial_stats total_requests app] in H1, H2, H4.
    destruct (H5 initial_stats_consistent) as (Hc & Hh & Ht).
    unfold counters_add_up in Hc.
    rewrite F1, F2, F3, F4, F5, F6, H1, H2, H4, length_app. repeat split; lia.
Qed.

(** The summary of a session of 60 s, with a signal at 1003 s, that finds
    that old line in its log: five requests, six lines. *)
Lemma fresh_session_summary_agrees_witness :
  let w := {| self := init 60 2; files := old_log; clock := 1000%Q; trace := [] |} in
  let w' := snd (monitor_responses 10 env_signal_at_1003 w) in
  existsb (fun ep => snd (connect env_signal_at_1003 ep)) (endpoints (init 60 2)) = true /\
  monitor_responses 10 env_signal_at_1003 w = (Ok tt, w') /\
  length (openapi_responses_jsonl (files w')) = 6 /\
  exists summary,
    response_summary_json (files w') = Some summary /\
    length (openapi_responses_jsonl (files w')) =
      length (openapi_responses_jsonl old_log) + total_responses summary /\
    stat_total_requests summary = total_responses summary /\
    stat_total_requests summary =
      stat_successful_requests summary + stat_failed_requests summary /\
    hist_total (status_code_distribution summary) + total_errors summary =
      stat_total_requests summary.
Proof.
  cbv zeta. split; [reflexivity |].
  split; [vm_compute; reflexivity |].
  split; [vm_compute; reflexivity |].
  apply (fresh_session_summary_agrees env_signal_at_1003 60 2 old_log 1000 [] 10).
  - reflexivity.
  - vm_compute. reflexivity.
Defined.

Lemma pass_time_flag (env : Env) (d : Q) (w : World) : flag_is_current env (pass_time env d w).
Proof.
  unfold flag_is_current. rewrite pass_time_running, pass_time_clock.
  destruct (signal_due env _); [discriminate | done].
Qed.

Lemma slept_flag (env : Env) (w : World) :
  flag_is_current env w -> flag_is_current env (slept env w).
Proof.
  intros H. unfold slept. destruct (running (self w)) eqn:E; [| exact H].
  apply (pass_time_flag env (inject_Z (sample_interval (self w))) w).
Qed.

Lemma slept_trace (env : Env) (w : World) :
  exists evs, trace (slept env w) = trace w ++ evs /\
              Forall (fun e => match e with EvSleep _ _ => True | _ => False end) evs.
Proof.
  unfold slept. destruct (running (self w)).
  - eexists. cbn [emit trace].
    destruct (pass_time_frame env (inject_Z (sample_interval (self w))) w) as [_ ->].
    split; [reflexivity |]. by repeat constructor.
  - exists []. by rewrite app_nil_r.
Qed.

Lemma signal_not_due (env : Env) (t s : Q) :
  signal_due env t = false -> signal_at env = Some s -> (t < s)%Q.
Proof.
  unfold signal_due. intros H Hs. rewrite Hs in H. by destruct (Qlt_le_dec t s).
Qed.

Lemma dispatched_length (env : Env) (k : nat) (active : list string) (w : World) :
  length (dispatched env k active w) <= 5.
Proof.
  unfold dispatched. cbv zeta. destruct (running (self w)); [| simpl; lia].
  rewrite length_map, !length_take. lia.
Qed.

Lemma rounds_after_round (env : Env) (end_time : Q) (k : nat) (active : list string)
    (w w1 : World) :
  rounds_so_far env end_time w w1 ->
  running (self w1) = true -> (clock w1 < end_time)%Q ->
  rounds_so_far env end_time w (after_round env k active w1).
Proof.
  intros (Hflag & evs & Htr & Hall) Hr Hc.
  specialize (Hflag Hr).
  unfold after_round.
  pose proof (dispatched_length env k active w1) as Hlen.
  set (tasks := dispatched env k active w1) in *.
  destruct (started_frame env k active w1) as (Hc1 & _ & Ht1 & _ & _ & Hr1).
  set (w1s := started env k active w1) in *. cbv zeta in Hc1, Ht1, Hr1.
  set (w2 := settled env tasks w1s).
  assert (H2 : flag_is_current env w2 /\
               exists evs2, trace w2 = trace w ++ evs2 /\
                            Forall (round_event env end_time) evs2).
  { subst w2. destruct tasks as [| t rest] eqn:Et.
    - split; [intros _; cbn [settled]; by rewrite Hc1 |].
      exists evs. cbn [settled]. rewrite Ht1. split; [exact Htr | exact Hall].
    - rewrite <- Et in *. rewrite settled_nonempty by (rewrite Et; simpl; lia).
      destruct (gathered_frame env tasks w1s) as (_ & _ & Hc2 & Hrun2 & Htr2).
      split.
      + unfold flag_is_current. cbn [keep self running clock].
        rewrite Hrun2, Hc2.
        destruct (signal_due env (clock w1s + Qmax 0 (longest tasks)));
          [discriminate | done].
      + exists (evs ++ [EvGather (clock w1s) (length tasks)
                          (clock w1s + Qmax 0 (longest tasks))]).
        cbn [keep trace]. rewrite Htr2, Ht1, Htr, app_assoc. split; [reflexivity |].
        apply Forall_app. split; [exact Hall |].
        constructor; [| constructor]. simpl. rewrite Hc1.
        split; [exact Hc |].
        split; [pose proof (f_equal length Et) as Hl; simpl in Hl; lia |].
        intros s Hs. by apply (signal_not_due env). }
  destruct H2 as (Hflag2 & evs2 & Htr2 & Hall2).
  split; [by apply slept_flag |].
  destruct (slept_trace env w2) as (evs3 & Htr3 & Hall3).
  exists (evs2 ++ evs3). rewrite Htr3, Htr2, app_assoc. split; [reflexivity |].
  apply Forall_app. split; [exact Hall2 |].
  eapply Forall_impl; [exact Hall3 |]. intros e He. by destruct e.
Qed.

Lemma after_connectivity_flag (env : Env) (eps : list string) (w : World) :
  eps <> [] -> flag_is_current env (after_connectivity env eps w).
Proof.
  intros Hne. destruct eps as [| ep eps] using rev_ind; [done |].
  unfold after_connectivity. rewrite foldl_app. simpl. apply pass_time_flag.
Qed.

(** The rounds of a session: every batch that is gathered has between one
    and five requests, and its round starts strictly before the deadline
    [start + duration] and strictly before the time [signal_at] at which a
    signal arrives, if one does. *)
Theorem rounds_respect_deadline_and_signal
    (env : Env) (w : World) (fuel : nat) (w' : World) :
  monitor_responses fuel env w = (Ok tt, w') ->
  exists evs,
    trace w' = trace w ++ evs /\
    forall t0 n t1,
      EvGather t0 n t1 ∈ evs ->
      (t0 < clock w + inject_Z (duration (self w)))%Q /\
      1 <= n <= 5 /\
      (forall s, signal_at env = Some s -> (t0 < s)%Q).
Proof.
  intros Hrun.
  set (active := active_of (connectivity_of env (endpoints (self w)) [])).
  set (end_time := (clock w + inject_Z (duration (self w)))%Q).
  set (w0 := with_self (set_start_time (clock w)) w).
  destruct (after_connectivity_files env (endpoints (self w)) w0) as [_ Htr1].
  destruct (monitor_responses_after_probe
              (fun x => active <> [] -> rounds_so_far env end_time w x) env w fuel w')
    as [[Ha ->] | (Ha & w2 & Hp & Hs & Hgen)].
  - intros k x Hx Hr Hc Hne. apply rounds_after_round; [by apply Hx | exact Hr | exact Hc].
  - intros Hne. split.
    + apply after_connectivity_flag. intros He. apply Hne. subst active. by rewrite He.
    + exists []. rewrite app_nil_r. split; [exact Htr1 | constructor].
  - exact Hrun.
  - exists []. rewrite app_nil_r. split; [exact Htr1 |].
    intros t0 n t1 H. by apply elem_of_nil in H.
  - destruct (Hp Ha) as (_ & evs & Htr & Hall).
    assert (Hst : start_time (self w2) = Some (clock w)).
    { destruct Hs as (_ & _ & -> & _). reflexivity. }
    destruct (generate_reports_runs w2 (clock w) Hst)
      as (ls & summary & rows & eps & _ & _ & _ & _ & Hgen').
    rewrite Hgen' in Hgen. injection Hgen as <-.
    exists (evs ++ [EvGenerateReports (clock w2)]). cbn [trace].
    rewrite Htr, app_assoc. split; [reflexivity |].
    intros t0 n t1 Hin. apply elem_of_app in Hin as [Hin | Hin].
    + rewrite Forall_forall in Hall. exact (Hall _ Hin).
    + apply list_elem_of_singleton in Hin. discriminate.
Qed.

(** The rounds of that session. *)
Lemma rounds_respect_deadline_and_signal_witness :
  let w := new_world 60 2 1000 in
  let w' := snd (monitor_responses 10 env_signal_at_1003 w) in
  monitor_responses 10 env_signal_at_1003 w = (Ok tt, w') /\
  exists evs,
    trace w' = trace w ++ evs /\
    forall t0 n t1,
      EvGather t0 n t1 ∈ evs ->
      (t0 < clock w + inject_Z (duration (self w)))%Q /\
      1 <= n <= 5 /\
      (forall s, signal_at env_signal_at_1003 = Some s -> (t0 < s)%Q).
Proof.
  cbv zeta. split; [vm_compute; reflexivity |].
  apply (rounds_respect_deadline_and_signal env_signal_at_1003 (new_world 60 2 1000) 10
           (snd (monitor_responses 10 env_signal_at_1003 (new_world 60 2 1000)))).
  vm_compute. reflexivity.
Defined.

